(** * analyze_doc.py: document -> stories.json

    A shallow embedding of the core of [scripts/analyze_doc.py]
    (prompt construction, response extraction, structural validation and the
    tail of [main] that persists the backlog), and the properties of it that
    the specification states.

    Python text is a sequence of code points, so a [str] is a list of [N];
    literals are written as UTF-8 Rocq strings and decoded by [lit]. *)

From Stdlib Require Import String Ascii NArith ZArith Bool Lia SpecFloat.
From Stdlib Require Import DecimalString.
From Stdlib Require Import List Permutation.
Import ListNotations.

Set Implicit Arguments.

(* ------------------------------------------------------------------ *)
(** ** Text *)

Definition char := N.
Definition str := list char.

(** Decoding of the UTF-8 bytes of a Rocq literal into code points. *)
Fixpoint utf8 (bs : list N) : str :=
  match bs with
  | [] => []
  | b :: r =>
      if (b <? 128)%N then b :: utf8 r
      else if (b <? 224)%N then
        match r with
        | b1 :: r1 => ((b - 192) * 64 + (b1 - 128))%N :: utf8 r1
        | _ => []
        end
      else if (b <? 240)%N then
        match r with
        | b1 :: b2 :: r2 =>
            ((b - 224) * 4096 + (b1 - 128) * 64 + (b2 - 128))%N :: utf8 r2
        | _ => []
        end
      else
        match r with
        | b1 :: b2 :: b3 :: r3 =>
            ((b - 240) * 262144 + (b1 - 128) * 4096
             + (b2 - 128) * 64 + (b3 - 128))%N :: utf8 r3
        | _ => []
        end
  end.

Definition lit (s : string) : str :=
  utf8 (map N_of_ascii (list_ascii_of_string s)).

(** A literal in which the apostrophe stands for the double quote: the
    prompt template is full of double quotes and has no apostrophe. *)
Definition qlit (s : string) : str :=
  map (fun c => if (c =? 39)%N then 34%N else c) (lit s).

Definition NL : char := 10%N.

Fixpoint str_eqb (a b : str) : bool :=
  match a, b with
  | [], [] => true
  | x :: a', y :: b' => (x =? y)%N && str_eqb a' b'
  | _, _ => false
  end.

(** [s.startswith(p)] *)
Fixpoint starts_with (p s : str) : bool :=
  match p, s with
  | [], _ => true
  | x :: p', y :: s' => (x =? y)%N && starts_with p' s'
  | _ :: _, [] => false
  end.

(** [p in s] for texts: [p] occurs somewhere in [s]. *)
Fixpoint contains (p s : str) : bool :=
  starts_with p s ||
  match s with
  | [] => false
  | _ :: s' => contains p s'
  end.

(** [sep.join(parts)] *)
Fixpoint join (sep : str) (parts : list str) : str :=
  match parts with
  | [] => []
  | [p] => p
  | p :: rest => p ++ sep ++ join sep rest
  end.

(** The characters Python treats as whitespace, both in [str.strip()] and
    for the regular-expression class [\s] on text patterns. *)
Definition is_space (c : char) : bool :=
  ((9 <=? c) && (c <=? 13) || (28 <=? c) && (c <=? 32)
   || (c =? 133) || (c =? 160) || (c =? 5760)
   || (8192 <=? c) && (c <=? 8202)
   || (c =? 8232) || (c =? 8233) || (c =? 8239) || (c =? 8287)
   || (c =? 12288))%N.

Fixpoint lstrip (s : str) : str :=
  match s with
  | [] => []
  | c :: t => if is_space c then lstrip t else s
  end.

Fixpoint rstrip (s : str) : str :=
  match s with
  | [] => []
  | c :: t =>
      match rstrip t with
      | [] => if is_space c then [] else [c]
      | t' => c :: t'
      end
  end.

(** [s.strip()] *)
Definition strip (s : str) : str := rstrip (lstrip s).

(** Number of leading whitespace characters: what a greedy [\s*] takes. *)
Fixpoint ws_run (s : str) : nat :=
  match s with
  | [] => 0
  | c :: t => if is_space c then S (ws_run t) else 0
  end.

(* ------------------------------------------------------------------ *)
(** ** The two substitutions of [extract_json] *)

Definition fence : str := lit "```".
Definition json_tag : str := lit "json".

(** [re.sub(pattern, "", s)] for a pattern that is given by its matcher:
    [m bol t] is the length of the match that starts at the suffix [t],
    where [bol] tells whether that position is the start of the text or
    follows a newline.  The scan goes left to right, drops each match and
    resumes right after it; [skip] counts the characters of the current
    match still to drop. *)
Fixpoint re_sub_empty (m : bool -> str -> option nat)
    (skip : nat) (bol : bool) (s : str) : str :=
  match s with
  | [] => []
  | c :: t =>
      match skip with
      | S k => re_sub_empty m k (c =? NL)%N t
      | O =>
          match m bol s with
          | Some (S k) => re_sub_empty m k (c =? NL)%N t
          | _ => c :: re_sub_empty m 0 (c =? NL)%N t
          end
      end
  end.

(** The pattern [^```(?:json)?\s*] under [re.MULTILINE]: at a line start,
    the three backquotes, then [json] when it is there, then every
    whitespace character that follows. *)
Definition match_open (bol : bool) (s : str) : option nat :=
  if bol && starts_with fence s then
    let r := skipn 3 s in
    if starts_with json_tag r
    then Some (3 + 4 + ws_run (skipn 4 r))
    else Some (3 + ws_run r)
  else None.

(** [$] under [re.MULTILINE]: the end of the text or just before a newline. *)
Definition at_eol (s : str) : bool :=
  match s with
  | [] => true
  | c :: _ => (c =? NL)%N
  end.

(** The pattern [\s*```$] under [re.MULTILINE]: a whitespace run (no
    shorter run can be followed by a backquote), the three backquotes, and
    then the end of a line. *)
Definition match_close (_ : bool) (s : str) : option nat :=
  let w := ws_run s in
  let r := skipn w s in
  if starts_with fence r && at_eol (skipn 3 r) then Some (w + 3) else None.

Definition sub_open (s : str) : str := re_sub_empty match_open 0 true s.
Definition sub_close (s : str) : str := re_sub_empty match_close 0 true s.

(** Lines 197-199 of the source: the text handed to [json.loads]. *)
Definition clean_response (raw : str) : str :=
  let cleaned := sub_open (strip raw) in
  let cleaned := sub_close (strip cleaned) in
  strip cleaned.

(* ------------------------------------------------------------------ *)
(** ** Values

    What [yaml.safe_load] and [json.loads] hand to the program.  A [dict]
    keeps its insertion order, so it is an association list.  Its keys are
    texts, as in every JSON object.  A schema in which a YAML mapping has a
    key that is no text (an unquoted number, say) is no value of this type:
    what is stated below about every schema is stated about the schemas
    whose mappings have text keys. *)

#[warnings="-register-all"]
Inductive pyval : Type :=
| PNone
| PBool (b : bool)
| PInt (z : Z)
| PFloat (f : spec_float)
| PStr (s : str)
| PList (xs : list pyval)
| PDict (kvs : list (str * pyval)).

Inductive exn : Type :=
| AttributeError | KeyError | TypeError | RecursionError | ValueError.

(** How a call ends: with a value, with [sys.exit(msg)], or with an
    exception nobody catches. *)
Inductive outcome (A : Type) : Type :=
| Ok (a : A)
| Exit (msg : str)
| Raise (e : exn).

Arguments Ok {A} a.
Arguments Exit {A} msg.
Arguments Raise {A} e.

(** The ambient state a run can touch. *)
Record world : Type := World {
  env : list (str * str);      (* os.environ *)
  stdout : list str;           (* what print() wrote, oldest first *)
  files : list (str * str)     (* files written, newest first *)
}.

Definition M (A : Type) : Type := world -> outcome A * world.

Class Monad (m : Type -> Type) : Type := {
  ret : forall A, A -> m A;
  bind : forall A B, m A -> (A -> m B) -> m B
}.

Arguments ret {m _ A} _.
Arguments bind {m _ A B} _ _.

#[export] Instance outcome_monad : Monad outcome := {
  ret := fun A a => Ok a;
  bind := fun A B c k =>
    match c with
    | Ok a => k a
    | Exit msg => Exit msg
    | Raise e => Raise e
    end
}.

#[export] Instance M_monad : Monad M := {
  ret := fun A a w => (Ok a, w);
  bind := fun A B c k w =>
    match c w with
    | (Ok a, w') => k a w'
    | (Exit msg, w') => (Exit msg, w')
    | (Raise e, w') => (Raise e, w')
    end
}.

Declare Scope monad_scope.
Delimit Scope monad_scope with monad.
Notation "x <- c ;; k" := (bind c (fun x => k))
  (at level 61, c at next level, right associativity) : monad_scope.
Notation "c ;; k" := (bind c (fun _ => k))
  (at level 61, right associativity) : monad_scope.
Open Scope monad_scope.

(** A computation without effect on the world. *)
Definition lift {A} (c : outcome A) : M A := fun w => (c, w).

Definition sys_exit {A} (msg : str) : M A := fun w => (Exit msg, w).

Definition print (line : str) : M unit :=
  fun w => (Ok tt, World (env w) (stdout w ++ [line]) (files w)).

Definition write_file (path content : str) : M unit :=
  fun w => (Ok tt, World (env w) (stdout w) ((path, content) :: files w)).

Fixpoint print_all (lines : list str) : M unit :=
  match lines with
  | [] => ret tt
  | l :: rest => print l ;; print_all rest
  end.

(** [for x in xs: acc = f(acc, x)], stopping at the first failure. *)
Fixpoint fold_o {A B} (f : A -> B -> outcome A) (xs : list B) (acc : A)
  : outcome A :=
  match xs with
  | [] => Ok acc
  | x :: rest => acc' <- f acc x ;; fold_o f rest acc'
  end.

(** The items of a generator expression, left to right. *)
Fixpoint map_o {A B} (f : A -> outcome B) (xs : list A) : outcome (list B) :=
  match xs with
  | [] => Ok []
  | x :: rest => y <- f x ;; ys <- map_o f rest ;; Ok (y :: ys)
  end.

(* ------------------------------------------------------------------ *)
(** ** The Python operations the program uses *)

Fixpoint lookup (k : str) (kvs : list (str * pyval)) : option pyval :=
  match kvs with
  | [] => None
  | (k', v) :: rest => if str_eqb k k' then Some v else lookup k rest
  end.

(** [o.get(k, d)] *)
Definition py_get (o : pyval) (k : str) (d : pyval) : outcome pyval :=
  match o with
  | PDict kvs =>
      Ok (match lookup k kvs with Some v => v | None => d end)
  | _ => Raise AttributeError
  end.

(** [o[k]] for a text [k] *)
Definition py_index (o : pyval) (k : str) : outcome pyval :=
  match o with
  | PDict kvs =>
      match lookup k kvs with Some v => Ok v | None => Raise KeyError end
  | _ => Raise TypeError
  end.

(** [o.items()] *)
Definition py_items (o : pyval) : outcome (list (str * pyval)) :=
  match o with
  | PDict kvs => Ok kvs
  | _ => Raise AttributeError
  end.

(** [o.keys()] *)
Definition py_keys (o : pyval) : outcome (list str) :=
  match o with
  | PDict kvs => Ok (map fst kvs)
  | _ => Raise AttributeError
  end.

(** [bool(v)], as [not v] and [if v] use it. *)
Definition truthy (v : pyval) : bool :=
  match v with
  | PNone => false
  | PBool b => b
  | PInt z => negb (z =? 0)%Z
  | PFloat (S754_zero _) => false
  | PFloat _ => true
  | PStr s => negb (Nat.eqb (length s) 0)
  | PList xs => negb (Nat.eqb (length xs) 0)
  | PDict kvs => negb (Nat.eqb (length kvs) 0)
  end.

(** What [for x in v] runs through. *)
Definition py_iter (v : pyval) : outcome (list pyval) :=
  match v with
  | PList xs => Ok xs
  | PDict kvs => Ok (map (fun kv => PStr (fst kv)) kvs)
  | PStr s => Ok (map (fun c => PStr [c]) s)
  | _ => Raise TypeError
  end.

(** [p in ks] for a set [ks] of texts: hashing a list or a dict fails, and
    a scalar that is no text equals none of the texts. *)
Definition in_set (p : pyval) (ks : list str) : outcome bool :=
  match p with
  | PList _ | PDict _ => Raise TypeError
  | PStr s => Ok (existsb (str_eqb s) ks)
  | _ => Ok false
  end.

(** How [json.loads(text)] ends: with the value, with a JSONDecodeError
    whose [str(exc)] is [message], or with an exception of another class
    (RecursionError when the text nests deeper than the interpreter
    allows, ValueError for an integer literal of more than 4300 digits). *)
Inductive decoding : Type :=
| Decoded (value : pyval)
| DecodeError (message : str)
| DecodeFailure (e : exn).

(** What the interpreter and the libraries outside the repository provide. *)
Class PyRuntime : Type := {
  (** [json.loads(text)] *)
  json_loads : str -> decoding;
  (** the text [json.dump(data, f, indent=2)] writes *)
  json_dumps : pyval -> str;
  (** [str(v)] of a value that is no text *)
  py_repr : pyval -> str;
  (** the order in which a set of these texts is iterated *)
  set_order : list str -> list str;
  (** the directory of the script *)
  SCRIPT_DIR : str
}.

(** What the program relies on: the decoder rejects the empty text with a
    JSONDecodeError, and a set built from distinct keys iterates over
    exactly those keys. *)
Class PyRuntimeLaws (R : PyRuntime) : Prop := {
  json_loads_empty : exists exc, json_loads [] = DecodeError exc;
  set_order_perm : forall ks, NoDup ks -> Permutation ks (set_order ks)
}.

(** [f"{v}"] *)
Definition py_format `{PyRuntime} (v : pyval) : str :=
  match v with
  | PStr s => s
  | _ => py_repr v
  end.

(* ------------------------------------------------------------------ *)
(** ** The program *)

Section Program.

Context {R : PyRuntime}.

Definition OUTPUT_FILE : str := SCRIPT_DIR ++ lit "/stories.json".

(** *** Prompt construction *)

Definition default_grouping : str :=
  lit "Group related items into 3–7 logical epics.".
Definition default_story_format : str :=
  lit "Write each user story as: As a <role>, I want <goal> so that <benefit>.".
Definition default_description_format : str :=
  lit "Include a reference ID, the user story, and the current state.".
Definition default_acceptance_criteria : str :=
  lit "Provide 5–8 specific, testable criteria per story as plain text strings.".

(** One item of the generator of lines 114-117. *)
Definition priority_line (item : str * pyval) : outcome str :=
  let (key, cfg) := item in
  guidance <- py_index cfg (lit "guidance") ;;
  Ok (qlit "  - '" ++ key ++ qlit "': " ++ py_format guidance).

(** Lines 114-117: one item per entry of [priorities.items()], joined by
    newlines. *)
Definition priority_block (priorities : pyval) : outcome str :=
  items <- py_items priorities ;;
  entries <- map_o priority_line items ;;
  Ok (join [NL] entries).

Definition prompt_head : str :=
  lit "You are a skilled business analyst. Analyse the provided document and produce a structured JSON backlog of epics and user stories.

EPIC GROUPING:
".

Definition prompt_story_format : str := lit "

STORY FORMAT:
".

Definition prompt_description_format : str := lit "

STORY DESCRIPTION FORMAT:
".

Definition prompt_acceptance_criteria : str := lit "

ACCEPTANCE CRITERIA:
".

Definition prompt_priority : str := lit "

PRIORITY — use exactly these string keys:
".

Definition prompt_output : str := qlit "

OUTPUT — return ONLY this JSON structure, no markdown fences, no explanation:
{
  'epics': [
    {
      'key': 'snake_case_identifier',
      'short_description': 'Epic title (50–80 chars)',
      'description': 'One-paragraph epic summary',
      'stories': [
        {
          'gap_id': 'X-1',
          'short_description': 'Story title (50–80 chars)',
          'description': 'Reference line\n\nUser story sentence.\n\nCurrent state: ...',
          'acceptance_criteria': [
            'First testable criterion',
            'Second testable criterion'
          ],
          'priority': 'critical'
        }
      ]
    }
  ]
}

RULES:
- Include 'gap_id' only if a reference ID exists in the source document; omit the field otherwise.
- Return ONLY the JSON object — no markdown code fences, no preamble, no commentary.
".

(** The system prompt of lines 119-163 around its five holes. *)
Definition system_prompt_text
    (grouping story_format description_format acceptance_criteria block : str)
  : str :=
  prompt_head ++ grouping
  ++ prompt_story_format ++ story_format
  ++ prompt_description_format ++ description_format
  ++ prompt_acceptance_criteria ++ acceptance_criteria
  ++ prompt_priority ++ block
  ++ prompt_output.

(** Lines 165-170. *)
Definition user_prompt_text (document : str) : str :=
  lit "Analyse the following document and produce the JSON backlog described above.

--- DOCUMENT START ---
" ++ document ++ lit "
--- DOCUMENT END ---".

Definition build_prompt (schema : pyval) (document : str) : M (str * str) :=
  ai_section <- lift (py_get schema (lit "ai") (PDict [])) ;;
  ai <- lift (py_get ai_section (lit "instructions") (PDict [])) ;;
  priorities <- lift (py_get schema (lit "priorities") (PDict [])) ;;
  block <- lift (priority_block priorities) ;;
  grouping <- lift (py_get ai (lit "grouping") (PStr default_grouping)) ;;
  story_format <-
    lift (py_get ai (lit "story_format") (PStr default_story_format)) ;;
  description_format <-
    lift (py_get ai (lit "description_format")
            (PStr default_description_format)) ;;
  acceptance_criteria <-
    lift (py_get ai (lit "acceptance_criteria")
            (PStr default_acceptance_criteria)) ;;
  ret (system_prompt_text (py_format grouping) (py_format story_format)
         (py_format description_format) (py_format acceptance_criteria)
         block,
       user_prompt_text document).

(** *** Response extraction *)

(** The message of lines 204-209. *)
Definition parse_failure_message (exc excerpt : str) : str :=
  lit "
Failed to parse the AI response as JSON: " ++ exc ++ lit "

First 500 characters of the response:
" ++ excerpt ++ lit "

Try running again — this can happen if the model wrapped the output in unexpected text.".

(** Lines 197-209.  [except json.JSONDecodeError] catches that class only:
    any other exception of the decoder leaves the function as it is. *)
Definition extract_json (raw : str) : M pyval :=
  let cleaned := clean_response raw in
  match json_loads cleaned with
  | Decoded value => ret value
  | DecodeError exc => sys_exit (parse_failure_message exc (firstn 500 cleaned))
  | DecodeFailure e => lift (Raise e)
  end.

(** *** Validation *)

(** The message of lines 220-224. *)
Definition no_epics_message : str :=
  lit "
The AI returned no epics. The input document may not contain enough structured content, or the model may have returned a response in an unexpected format.".

(** Line 226: the keys of the schema's priorities, as a set; they are
    texts, as all keys here. *)
Definition valid_priorities (schema : pyval) : outcome (list str) :=
  priorities <- py_get schema (lit "priorities") (PDict []) ;;
  py_keys priorities.

Definition epic_warning (short_description : pyval) : str :=
  lit "  Epic '" ++ py_format short_description ++ lit "' has no stories.".

(** Lines 235-238; [', '.join] has the texts of the set to join. *)
Definition story_warning (short_description p : pyval) (valid : list str)
  : str :=
  lit "  Story '" ++ py_format short_description
  ++ lit "' has unknown priority '" ++ py_format p
  ++ lit "' — valid values: " ++ join (lit ", ") (set_order valid).

(** Lines 233-238: the body of the loop over the stories. *)
Definition story_step (valid : list str) (warnings : list str)
    (story : pyval) : outcome (list str) :=
  p <- py_get story (lit "priority") (PStr []) ;;
  known <- in_set p valid ;;
  if negb known then
    short_description <-
      py_get story (lit "short_description") (PStr (lit "?")) ;;
    Ok (warnings ++ [story_warning short_description p valid])
  else Ok warnings.

(** Lines 230-238: the body of the loop over the epics. *)
Definition epic_step (valid : list str) (warnings : list str)
    (epic : pyval) : outcome (list str) :=
  stories <- py_get epic (lit "stories") PNone ;;
  warnings <-
    (if negb (truthy stories) then
       short_description <-
         py_get epic (lit "short_description") (PStr (lit "?")) ;;
       Ok (warnings ++ [epic_warning short_description])
     else Ok warnings) ;;
  stories <- py_get epic (lit "stories") (PList []) ;;
  stories <- py_iter stories ;;
  fold_o (story_step valid) stories warnings.

Definition warnings_header : str :=
  lit "Warnings (review stories.json before running create_stories.py):".

(** Lines 240-244. *)
Definition report (warnings : list str) : M unit :=
  match warnings with
  | [] => ret tt
  | _ => print warnings_header ;; print_all warnings ;; print []
  end.

Definition validate_structure (data schema : pyval) : M unit :=
  epics <- lift (py_get data (lit "epics") (PList [])) ;;
  if negb (truthy epics) then sys_exit no_epics_message
  else
    valid <- lift (valid_priorities schema) ;;
    epics <- lift (py_iter epics) ;;
    warnings <- lift (fold_o (epic_step valid) epics []) ;;
    report warnings.

(** *** The tail of [main], lines 298-303 *)

Definition main_tail (schema : pyval) (raw_response : str) : M unit :=
  data <- extract_json raw_response ;;
  validate_structure data schema ;;
  write_file OUTPUT_FILE (json_dumps data) ;;
  print (lit "  Written  : " ++ OUTPUT_FILE ++ [NL]).

End Program.

(* ------------------------------------------------------------------ *)
(** ** A reference runtime

    To run the program on examples the runtime has to be somebody.  The
    decoder below reads the JSON texts without fractions, exponents and
    [\u] escapes, with the results and the messages of [json.loads], and
    with its two failures that are no JSONDecodeError; the writer prints
    what the decoder reads; a set is iterated in insertion order; [str()]
    knows the scalars. *)

Module Ref.

Inductive jres (A : Type) : Type :=
| JOk (a : A) (rest : str)
| JErr (msg : str) (rest : str)
| JRaise (e : exn).

Arguments JOk {A} a rest.
Arguments JErr {A} msg rest.
Arguments JRaise {A} e.

(** The containers that can be open at once when [extract_json] is called
    from [main] under the default recursion limit of 1000. *)
Definition depth_limit : nat := 993.

(** [sys.get_int_max_str_digits()] *)
Definition max_str_digits : nat := 4300.

Definition json_ws (c : char) : bool :=
  ((c =? 32) || (c =? 9) || (c =? 10) || (c =? 13))%N.

Fixpoint skip_ws (s : str) : str :=
  match s with
  | c :: t => if json_ws c then skip_ws t else s
  | [] => []
  end.

Definition unescape (c : char) : option char :=
  (if c =? 34 then Some 34 else if c =? 92 then Some 92
   else if c =? 47 then Some 47 else if c =? 98 then Some 8
   else if c =? 102 then Some 12 else if c =? 110 then Some 10
   else if c =? 114 then Some 13 else if c =? 116 then Some 9
   else None)%N.

Definition outside : str := lit "outside the fragment of the reference decoder".

(** The text of a string after its opening quote; [opening] is the suffix
    that starts at that quote. *)
Fixpoint scan_string (opening s acc : str) : jres str :=
  match s with
  | [] => JErr (lit "Unterminated string starting at") opening
  | c :: t =>
      if (c =? 34)%N then JOk (rev acc) t
      else if (c =? 92)%N then
        match t with
        | [] => JErr (lit "Unterminated string starting at") opening
        | e :: t' =>
            match unescape e with
            | Some x => scan_string opening t' (x :: acc)
            | None =>
                if (e =? 117)%N then JErr outside s
                else JErr (lit "Invalid \escape") s
            end
        end
      else if (c <? 32)%N then JErr (lit "Invalid control character at") s
      else scan_string opening t (c :: acc)
  end.

Definition is_digit (c : char) : bool := ((48 <=? c) && (c <=? 57))%N.

Fixpoint digits (s : str) (acc : Z) : Z * str :=
  match s with
  | c :: t =>
      if is_digit c then digits t (10 * acc + Z.of_N (c - 48))%Z else (acc, s)
  | [] => (acc, [])
  end.

(** [int(text)] of the digits read: refused beyond [max_str_digits]. *)
Definition to_int (neg : bool) (n : Z) (s rest : str) : jres pyval :=
  if Nat.ltb max_str_digits (List.length s - List.length rest)
  then JRaise ValueError
  else JOk (PInt (if neg then - n else n)%Z) rest.

(** An integer literal: [0], or digits that start with [1-9]. *)
Definition scan_int (neg : bool) (at_ s : str) : jres pyval :=
  match s with
  | c :: t =>
      if is_digit c then
        let (n, rest) := if (c =? 48)%N then (0%Z, t) else digits s 0%Z in
        match rest with
        | d :: _ =>
            if ((d =? 46) || (d =? 101) || (d =? 69))%N then JErr outside at_
            else to_int neg n s rest
        | [] => to_int neg n s rest
        end
      else JErr (lit "Expecting value") at_
  | [] => JErr (lit "Expecting value") at_
  end.

(** [d[k] = v] on a dict. *)
Fixpoint dict_set (k : str) (v : pyval) (kvs : list (str * pyval))
  : list (str * pyval) :=
  match kvs with
  | [] => [(k, v)]
  | (k', v') :: rest =>
      if str_eqb k k' then (k, v) :: rest else (k', v') :: dict_set k v rest
  end.

(** One value at the head of [s]; [depth] is the number of containers that
    may still be opened. *)
Fixpoint scan_once (fuel depth : nat) (s : str) : jres pyval :=
  match fuel with
  | O => JErr outside s
  | S fuel' =>
      match s with
      | [] => JErr (lit "Expecting value") s
      | c :: t =>
          if (c =? 34)%N then
            match scan_string s t [] with
            | JOk x rest => JOk (PStr x) rest
            | JErr m r => JErr m r
            | JRaise e => JRaise e
            end
          else if (c =? 91)%N then
            match depth with
            | O => JRaise RecursionError
            | S depth' =>
                match skip_ws t with
                | d :: t' =>
                    if (d =? 93)%N then JOk (PList []) t'
                    else scan_items fuel' depth' (skip_ws t) []
                | [] => JErr (lit "Expecting value") []
                end
            end
          else if (c =? 123)%N then
            match depth with
            | O => JRaise RecursionError
            | S depth' =>
                match skip_ws t with
                | d :: t' =>
                    if (d =? 125)%N then JOk (PDict []) t'
                    else scan_members fuel' depth' (skip_ws t) []
                | [] =>
                    JErr
                      (lit "Expecting property name enclosed in double quotes")
                      []
                end
            end
          else if starts_with (lit "null") s then JOk PNone (skipn 4 s)
          else if starts_with (lit "true") s then JOk (PBool true) (skipn 4 s)
          else if starts_with (lit "false") s then
            JOk (PBool false) (skipn 5 s)
          else if (c =? 45)%N then
            if starts_with (lit "-Infinity") s then JErr outside s
            else scan_int true s t
          else if starts_with (lit "NaN") s || starts_with (lit "Infinity") s
          then JErr outside s
          else scan_int false s s
      end
  end

with scan_items (fuel depth : nat) (s : str) (acc : list pyval)
  : jres pyval :=
  match fuel with
  | O => JErr outside s
  | S fuel' =>
      match scan_once fuel' depth s with
      | JErr m r => JErr m r
      | JRaise e => JRaise e
      | JOk v rest =>
          match skip_ws rest with
          | d :: t =>
              if (d =? 93)%N then JOk (PList (rev (v :: acc))) t
              else if (d =? 44)%N
              then scan_items fuel' depth (skip_ws t) (v :: acc)
              else JErr (lit "Expecting ',' delimiter") (skip_ws rest)
          | [] => JErr (lit "Expecting ',' delimiter") []
          end
      end
  end

with scan_members (fuel depth : nat) (s : str) (acc : list (str * pyval))
  : jres pyval :=
  match fuel with
  | O => JErr outside s
  | S fuel' =>
      match s with
      | q :: t =>
          if (q =? 34)%N then
            match scan_string s t [] with
            | JErr m r => JErr m r
            | JRaise e => JRaise e
            | JOk k rest =>
                match skip_ws rest with
                | c :: t1 =>
                    if (c =? 58)%N then
                      match scan_once fuel' depth (skip_ws t1) with
                      | JErr m r => JErr m r
                      | JRaise e => JRaise e
                      | JOk v rest' =>
                          match skip_ws rest' with
                          | d :: t2 =>
                              if (d =? 125)%N
                              then JOk (PDict (dict_set k v acc)) t2
                              else if (d =? 44)%N
                              then scan_members fuel' depth (skip_ws t2)
                                     (dict_set k v acc)
                              else JErr (lit "Expecting ',' delimiter")
                                     (skip_ws rest')
                          | [] => JErr (lit "Expecting ',' delimiter") []
                          end
                      end
                    else JErr (lit "Expecting ':' delimiter") (skip_ws rest)
                | [] => JErr (lit "Expecting ':' delimiter") []
                end
            end
          else
            JErr (lit "Expecting property name enclosed in double quotes") s
      | [] =>
          JErr (lit "Expecting property name enclosed in double quotes") []
      end
  end.

Definition count_nl (s : str) : nat :=
  List.length (filter (fun c => (c =? NL)%N) s).

(** The characters after the last newline. *)
Fixpoint last_line (s : str) (acc : nat) : nat :=
  match s with
  | [] => acc
  | c :: t => last_line t (if (c =? NL)%N then 0 else S acc)
  end.

Definition decimal (n : nat) : str :=
  lit (NilZero.string_of_uint (Nat.to_uint n)).

(** [str(exc)] of a JSONDecodeError at the suffix [rest] of [text]. *)
Definition error_text (msg text rest : str) : str :=
  let pos := List.length text - List.length rest in
  let before := firstn pos text in
  msg ++ lit ": line " ++ decimal (S (count_nl before))
  ++ lit " column " ++ decimal (S (last_line before 0))
  ++ lit " (char " ++ decimal pos ++ lit ")".

Definition loads (text : str) : decoding :=
  let s := skip_ws text in
  match scan_once (3 * List.length text + 3) depth_limit s with
  | JErr m r => DecodeError (error_text m text r)
  | JRaise e => DecodeFailure e
  | JOk v rest =>
      match skip_ws rest with
      | [] => Decoded v
      | r => DecodeError (error_text (lit "Extra data") text r)
      end
  end.

(** [str(v)]: exact on the scalars; the reference runtime has no text for
    a float or a container. *)
Definition repr (v : pyval) : str :=
  match v with
  | PNone => lit "None"
  | PBool true => lit "True"
  | PBool false => lit "False"
  | PInt z => lit (NilZero.string_of_int (Z.to_int z))
  | PStr s => s
  | _ => lit "<object>"
  end.

Definition hex_digit (n : N) : char :=
  (if n <? 10 then 48 + n else 87 + n)%N.

(** [\uXXXX] *)
Definition u_escape (c : N) : str :=
  [92; 117; hex_digit (c / 4096 mod 16); hex_digit (c / 256 mod 16);
   hex_digit (c / 16 mod 16); hex_digit (c mod 16)]%N.

Definition escape_char (c : char) : str :=
  (if c =? 34 then [92; 34] else if c =? 92 then [92; 92]
   else if c =? 10 then [92; 110] else if c =? 13 then [92; 114]
   else if c =? 9 then [92; 116] else if c =? 8 then [92; 98]
   else if c =? 12 then [92; 102]
   else if (32 <=? c) && (c <=? 126) then [c]
   else if c <? 65536 then u_escape c
   else u_escape (55296 + (c - 65536) / 1024)
        ++ u_escape (56320 + (c - 65536) mod 1024))%N.

Definition quote (s : str) : str :=
  [34%N] ++ flat_map escape_char s ++ [34%N].

Definition pad (level : nat) : str := repeat 32%N (2 * level).

(** The text of [json.dump(v, f, indent=2)]; exact on the values the
    decoder above produces and on the special floats. *)
Fixpoint dumps (level : nat) (v : pyval) : str :=
  match v with
  | PNone => lit "null"
  | PBool true => lit "true"
  | PBool false => lit "false"
  | PInt z => lit (NilZero.string_of_int (Z.to_int z))
  | PFloat S754_nan => lit "NaN"
  | PFloat (S754_infinity false) => lit "Infinity"
  | PFloat (S754_infinity true) => lit "-Infinity"
  | PFloat (S754_zero false) => lit "0.0"
  | PFloat (S754_zero true) => lit "-0.0"
  | PFloat _ => lit "<float>"
  | PStr s => quote s
  | PList [] => lit "[]"
  | PList xs =>
      lit "[" ++ [NL] ++ pad (S level)
      ++ join (lit "," ++ [NL] ++ pad (S level)) (map (dumps (S level)) xs)
      ++ [NL] ++ pad level ++ lit "]"
  | PDict [] => lit "{}"
  | PDict kvs =>
      lit "{" ++ [NL] ++ pad (S level)
      ++ join (lit "," ++ [NL] ++ pad (S level))
           (map (fun kv =>
                   match kv with
                   | (k, x) => quote k ++ lit ": " ++ dumps (S level) x
                   end) kvs)
      ++ [NL] ++ pad level ++ lit "}"
  end.

Definition runtime : PyRuntime := {|
  json_loads := loads;
  json_dumps := dumps 0;
  py_repr := repr;
  set_order := fun ks => ks;
  SCRIPT_DIR := lit "/srv/scripts"
|}.

End Ref.

(* ------------------------------------------------------------------ *)
(** ** Vocabulary of the specification *)





(** The lines of a text; the empty text has none. *)
Fixpoint split_nl (s : str) : list str :=
  match s with
  | [] => [[]]
  | c :: t =>
      if (c =? NL)%N then [] :: split_nl t
      else match split_nl t with
           | l :: ls => (c :: l) :: ls
           | [] => [[c]]
           end
  end.

Definition lines_of (s : str) : list str :=
  match s with
  | [] => []
  | _ => split_nl s
  end.

Definition one_line (s : str) : bool :=
  forallb (fun c => negb (c =? NL)%N) s.

(** [o.get(k, d)] on a value known to be a dict. *)
Definition field (o : pyval) (k : str) (d : pyval) : pyval :=
  match o with
  | PDict kvs => match lookup k kvs with Some v => v | None => d end
  | _ => d
  end.

Definition has_key (o : pyval) (k : str) : bool :=
  match o with
  | PDict kvs => match lookup k kvs with Some _ => true | None => false end
  | _ => false
  end.

Definition is_dict (v : pyval) : bool :=
  match v with PDict _ => true | _ => false end.

Definition hashable (v : pyval) : bool :=
  match v with PList _ | PDict _ => false | _ => true end.

(** The shape the prompt asks the model for, as far as the validator
    depends on it: an object whose [epics], when there, is a list of
    objects whose [stories], when there, is a list of objects whose
    [priority], when there, is a scalar. *)
Definition story_shaped (story : pyval) : bool :=
  is_dict story && hashable (field story (lit "priority") (PStr [])).

Definition epic_shaped (epic : pyval) : bool :=
  is_dict epic &&
  match field epic (lit "stories") (PList []) with
  | PList stories => forallb story_shaped stories
  | _ => false
  end.

Definition backlog_shaped (data : pyval) : bool :=
  is_dict data &&
  match field data (lit "epics") (PList []) with
  | PList epics => forallb epic_shaped epics
  | _ => false
  end.

Definition epics_of (data : pyval) : list pyval :=
  match field data (lit "epics") (PList []) with
  | PList epics => epics
  | _ => []
  end.

Definition stories_of (epic : pyval) : list pyval :=
  match field epic (lit "stories") (PList []) with
  | PList stories => stories
  | _ => []
  end.

(** The schema's priority keys, in the schema's order. *)
Definition priority_keys (schema : pyval) : list str :=
  match field schema (lit "priorities") (PDict []) with
  | PDict kvs => map fst kvs
  | _ => []
  end.

(** A schema whose [priorities], when there, is a mapping (with text keys,
    as every mapping here). *)
Definition schema_shaped (schema : pyval) : bool :=
  is_dict schema && is_dict (field schema (lit "priorities") (PDict [])).

(** The instruction part of a schema is readable: [ai] and
    [ai.instructions], when there, are mappings. *)
Definition instructions_shaped (schema : pyval) : bool :=
  is_dict schema
  && is_dict (field schema (lit "ai") (PDict []))
  && is_dict (field (field schema (lit "ai") (PDict []))
                (lit "instructions") (PDict [])).

Definition instructions_of (schema : pyval) : pyval :=
  field (field schema (lit "ai") (PDict [])) (lit "instructions") (PDict []).

(** Every priority record carries a [guidance]. *)
Definition all_guided (schema : pyval) : bool :=
  match field schema (lit "priorities") (PDict []) with
  | PDict kvs => forallb (fun kv => has_key (snd kv) (lit "guidance")) kvs
  | _ => false
  end.

Definition priority_known (valid : list str) (story : pyval) : bool :=
  match field story (lit "priority") (PStr []) with
  | PStr p => existsb (str_eqb p) valid
  | _ => false
  end.

Definition no_stories (epic : pyval) : bool :=
  match stories_of epic with [] => true | _ => false end.

Section Expected.

Context {R : PyRuntime}.

(** The entry of the vocabulary block for one priority. *)
Definition entry_text (key : str) (guidance : pyval) : str :=
  qlit "  - '" ++ key ++ qlit "': " ++ py_format guidance.

(** The warnings the specification asks for: per epic, one when it has no
    story, then one per story whose priority is unknown. *)
Definition warnings_of_epic (valid : list str) (epic : pyval) : list str :=
  (if no_stories epic
   then [epic_warning (field epic (lit "short_description") (PStr (lit "?")))]
   else [])
  ++ map (fun story =>
            story_warning
              (field story (lit "short_description") (PStr (lit "?")))
              (field story (lit "priority") (PStr [])) valid)
       (filter (fun story => negb (priority_known valid story))
          (stories_of epic)).

Definition expected_warnings (valid : list str) (epics : list pyval)
  : list str :=
  flat_map (warnings_of_epic valid) epics.

(** The text the program puts into an instruction slot. *)
Definition instruction_text (schema : pyval) (key default : str) : str :=
  py_format (field (instructions_of schema) key (PStr default)).

End Expected.

(** Sample inputs. *)

Definition w0 : world := World [] [] [].


Definition fenced_empty_backlog : str :=
  fence ++ json_tag ++ [NL] ++ qlit "{'epics': []}" ++ [NL] ++ fence.

Definition refusal_response : str := lit "Sorry, I can't help with that.".

Definition one_epic_response : str :=
  qlit "{'epics': [{'key':'e1','short_description':'x','stories':[]}]}".

Definition null_stories_response : str :=
  qlit "{'epics': [{'key': 'e1', 'short_description': 'x', 'stories': null}]}".

Definition urgent_response : str :=
  qlit "{'epics': [{'key': 'e1', 'short_description': 'x', 'stories': [{'short_description': 's1', 'priority': 'urgent'}, {'short_description': 's2', 'priority': 'high'}]}]}".

Definition guidance (text : string) : pyval :=
  PDict [(lit "guidance", PStr (lit text)); (lit "label", PStr (lit text))].

Definition sample_schema : pyval :=
  PDict [(lit "ai",
          PDict [(lit "instructions",
                  PDict [(lit "grouping", PStr (lit "Group by theme."))])]);
         (lit "priorities",
          PDict [(lit "critical", guidance "Blocks release");
                 (lit "high", guidance "Important");
                 (lit "low", guidance "Nice to have")])].

Definition unguided_schema : pyval :=
  PDict [(lit "priorities",
          PDict [(lit "high", PDict [(lit "label", PStr (lit "High"))])])].

Definition blank_instructions_schema : pyval :=
  PDict [(lit "ai", PDict [(lit "instructions", PNone)]);
         (lit "priorities", PDict [(lit "high", guidance "Important")])].

Definition two_line_schema : pyval :=
  PDict [(lit "priorities",
          PDict [(lit "high",
                  PDict [(lit "guidance",
                          PStr (lit "Important." ++ [NL]
                                ++ lit "Do these first."))])])].

Definition two_line_block : str :=
  entry_text (R := Ref.runtime) (lit "high")
    (PStr (lit "Important." ++ [NL] ++ lit "Do these first.")).

Definition null_stories_backlog : pyval :=
  PDict [(lit "epics",
          PList [PDict [(lit "key", PStr (lit "e1"));
                        (lit "short_description", PStr (lit "x"));
                        (lit "stories", PNone)]])].



(** What [report] prints. *)
Definition printed_report (warnings : list str) : list str :=
  match warnings with
  | [] => []
  | _ => warnings_header :: warnings ++ [[]]
  end.

(** A run that neither reads nor changes the world. *)
Definition effect_free {A} (m : M A) : Prop :=
  exists r, forall w, m w = (r, w).

(** A run that at most prints. *)
Definition prints_only {A} (m : M A) : Prop :=
  forall w, exists r printed,
    m w = (r, World (env w) (stdout w ++ printed) (files w)).

(* ------------------------------------------------------------------ *)
(** ** Model selection, the summary and the end of [main] *)

(** [os.environ] *)
Fixpoint env_get (k : str) (e : list (str * str)) : option str :=
  match e with
  | [] => None
  | (k', v) :: rest => if str_eqb k k' then Some v else env_get k rest
  end.

(** [os.getenv(k, default)] *)
Definition getenv (k default : str) : M str :=
  fun w =>
    (Ok match env_get k (env w) with Some v => v | None => default end, w).

(** Truth of a text: it is not empty. *)
Definition nonempty (s : str) : bool := negb (Nat.eqb (List.length s) 0).

(** Lines 60-67. *)
Definition MODEL_DEFAULTS : list (str * str) :=
  [(lit "ANTHROPIC_API_KEY", lit "claude-sonnet-4-6");
   (lit "OPENAI_API_KEY", lit "gpt-4o");
   (lit "GEMINI_API_KEY", lit "gemini/gemini-1.5-pro");
   (lit "AZURE_API_KEY", lit "azure/gpt-4o");
   (lit "MISTRAL_API_KEY", lit "mistral/mistral-large-latest");
   (lit "COHERE_API_KEY", lit "command-r-plus")].

(** The message of lines 85-92. *)
Definition no_model_message : str :=
  lit "
Could not determine which AI model to use.

Add AI_MODEL and a provider API key to your .env file. Examples:

  Anthropic Claude  →  AI_MODEL=claude-sonnet-4-6    + ANTHROPIC_API_KEY=sk-ant-...
  OpenAI GPT        →  AI_MODEL=gpt-4o               + OPENAI_API_KEY=sk-...
  Google Gemini     →  AI_MODEL=gemini/gemini-1.5-pro + GEMINI_API_KEY=...

See .env.example for the full provider reference.".

(** The line of line 82. *)
Definition detected_line (env_key default_model : str) : str :=
  lit "  AI_MODEL not set — detected " ++ env_key
  ++ lit ", defaulting to " ++ default_model.

(** Lines 80-92: the first key of the list that is set wins. *)
Fixpoint detect_model (defaults : list (str * str)) : M str :=
  match defaults with
  | [] => sys_exit no_model_message
  | (env_key, default_model) :: rest =>
      value <- getenv env_key [] ;;
      if nonempty (strip value) then
        print (detected_line env_key default_model) ;; ret default_model
      else detect_model rest
  end.

(** Lines 74-92. *)
Definition resolve_model : M str :=
  model <- getenv (lit "AI_MODEL") [] ;;
  if nonempty (strip model) then ret (strip model)
  else detect_model MODEL_DEFAULTS.

(** A variable counts as set when its value is more than whitespace. *)
Definition env_set (w : world) (k : str) : bool :=
  nonempty (strip match env_get k (env w) with Some v => v | None => [] end).

(** [for x in xs: f(x)] *)
Fixpoint for_each {A} (f : A -> M unit) (xs : list A) : M unit :=
  match xs with
  | [] => ret tt
  | x :: rest => f x ;; for_each f rest
  end.

(** [str(n)] of a length or a count. *)
Definition str_of_nat (n : nat) : str :=
  lit (NilZero.string_of_uint (Nat.to_uint n)).

(** [len(v)] *)
Definition py_len (v : pyval) : outcome nat :=
  match v with
  | PStr s => Ok (List.length s)
  | PList xs => Ok (List.length xs)
  | PDict kvs => Ok (List.length kvs)
  | _ => Raise TypeError
  end.

(** [o.get(key, d)] for a key that is any value: the keys of [o] are
    texts, so another scalar finds nothing, and a list or a dict cannot be
    hashed. *)
Definition py_get_key (o key d : pyval) : outcome pyval :=
  match o with
  | PDict kvs =>
      match key with
      | PStr k => Ok (match lookup k kvs with Some v => v | None => d end)
      | PList _ | PDict _ => Raise TypeError
      | _ => Ok d
      end
  | _ => Raise AttributeError
  end.

(** Line 250: [sum(len(e.get("stories", [])) for e in ...)]. *)
Definition count_stories (epics : list pyval) : outcome nat :=
  fold_o (fun total e =>
            stories <- py_get e (lit "stories") (PList []) ;;
            n <- py_len stories ;;
            Ok (total + n))
    epics 0.

Section Summary.

Context {R : PyRuntime}.

(** Line 258. *)
Definition summary_label (priorities story : pyval) : outcome pyval :=
  p <- py_get story (lit "priority") (PStr []) ;;
  cfg <- py_get_key priorities p (PDict []) ;;
  fallback <- py_get story (lit "priority") (PStr (lit "?")) ;;
  py_get cfg (lit "label") fallback.

(** Lines 257-259: the line of one story. *)
Definition story_line (priorities story : pyval) : outcome str :=
  gap_id <- py_get story (lit "gap_id") PNone ;;
  gap <- (if truthy gap_id then
            gap_id <- py_index story (lit "gap_id") ;;
            Ok (lit "[" ++ py_format gap_id ++ lit "] ")
          else Ok []) ;;
  label <- summary_label priorities story ;;
  short_description <- py_index story (lit "short_description") ;;
  Ok (lit "      " ++ gap ++ py_format short_description
      ++ lit "  [" ++ py_format label ++ lit "]").

Definition epic_line (key short_description : pyval) (n : nat) : str :=
  lit "  [" ++ py_format key ++ lit "] " ++ py_format short_description
  ++ lit " — " ++ str_of_nat n ++ lit " stories".

(** Lines 254-259: the body of the loop over the epics. *)
Definition summary_epic (priorities epic : pyval) : M unit :=
  stories <- lift (py_get epic (lit "stories") (PList [])) ;;
  key <- lift (py_index epic (lit "key")) ;;
  short_description <- lift (py_index epic (lit "short_description")) ;;
  n <- lift (py_len stories) ;;
  print (epic_line key short_description n) ;;
  stories <- lift (py_iter stories) ;;
  for_each (fun story =>
              line <- lift (story_line priorities story) ;; print line)
    stories.

Definition summary_header (epic_count story_count : nat) : str :=
  lit "Generated " ++ str_of_nat epic_count ++ lit " epics, "
  ++ str_of_nat story_count ++ lit " stories:" ++ [NL].

(** Lines 247-260. *)
Definition print_summary (data schema : pyval) : M unit :=
  priorities <- lift (py_get schema (lit "priorities") (PDict [])) ;;
  epics <- lift (py_get data (lit "epics") (PList [])) ;;
  epic_count <- lift (py_len epics) ;;
  epics <- lift (py_get data (lit "epics") (PList [])) ;;
  epics <- lift (py_iter epics) ;;
  story_count <- lift (count_stories epics) ;;
  print (summary_header epic_count story_count) ;;
  epics <- lift (py_index data (lit "epics")) ;;
  epics <- lift (py_iter epics) ;;
  for_each (summary_epic priorities) epics ;;
  print [].

(** Lines 298-308: from the response of the model to the end of [main]. *)
Definition main_finish (schema : pyval) (raw_response : str) : M unit :=
  data <- extract_json raw_response ;;
  validate_structure data schema ;;
  write_file OUTPUT_FILE (json_dumps data) ;;
  print (lit "  Written  : " ++ OUTPUT_FILE ++ [NL]) ;;
  print_summary data schema ;;
  print (lit "Review stories.json, then create the records in ServiceNow:"
         ++ [NL]) ;;
  print (lit "    python create_stories.py" ++ [NL]).

End Summary.

(** Vocabulary for the summary and the model selection. *)

(** A text of whitespace only. *)
Definition blank (s : str) : bool := forallb is_space s.

(** [priorities.get(story.get("priority", ""), {})] *)
Definition record_of (priorities story : pyval) : pyval :=
  match field story (lit "priority") (PStr []) with
  | PStr k => field priorities k (PDict [])
  | _ => PDict []
  end.

(** What the summary shows as the priority of a story. *)
Definition label_of (priorities story : pyval) : pyval :=
  field (record_of priorities story) (lit "label")
    (field story (lit "priority") (PStr (lit "?"))).

(** A story the summary can list: an object with a short description, a
    scalar priority, and a mapping as the record of that priority. *)
Definition story_listed (priorities story : pyval) : bool :=
  is_dict story && has_key story (lit "short_description")
  && hashable (field story (lit "priority") (PStr []))
  && is_dict (record_of priorities story).

(** An epic the summary can list. *)
Definition epic_listed (priorities epic : pyval) : bool :=
  is_dict epic && has_key epic (lit "key")
  && has_key epic (lit "short_description")
  && match field epic (lit "stories") (PList []) with
     | PList stories => forallb (story_listed priorities) stories
     | _ => false
     end.

(** A result that is no [sys.exit]. *)
Definition no_exit {A} (c : outcome A) : Prop := forall msg, c <> Exit msg.

Section SummaryText.

Context {R : PyRuntime}.

Definition story_text (priorities story : pyval) : str :=
  lit "      "
  ++ (if truthy (field story (lit "gap_id") PNone)
      then lit "[" ++ py_format (field story (lit "gap_id") PNone) ++ lit "] "
      else [])
  ++ py_format (field story (lit "short_description") PNone)
  ++ lit "  [" ++ py_format (label_of priorities story) ++ lit "]".

Definition epic_text (priorities epic : pyval) : list str :=
  epic_line (field epic (lit "key") PNone)
    (field epic (lit "short_description") PNone)
    (List.length (stories_of epic))
  :: map (story_text priorities) (stories_of epic).

(** The lines of the summary of a backlog. *)
Definition expected_summary (priorities : pyval) (epics : list pyval)
  : list str :=
  summary_header (List.length epics)
    (List.length (flat_map stories_of epics))
  :: flat_map (epic_text priorities) epics ++ [[]].

(** The system prompt of a schema, without the world. *)
Definition system_prompt_of (schema : pyval) : outcome str :=
  ai_section <- py_get schema (lit "ai") (PDict []) ;;
  ai <- py_get ai_section (lit "instructions") (PDict []) ;;
  priorities <- py_get schema (lit "priorities") (PDict []) ;;
  block <- priority_block priorities ;;
  grouping <- py_get ai (lit "grouping") (PStr default_grouping) ;;
  story_format <-
    py_get ai (lit "story_format") (PStr default_story_format) ;;
  description_format <-
    py_get ai (lit "description_format") (PStr default_description_format) ;;
  acceptance_criteria <-
    py_get ai (lit "acceptance_criteria")
      (PStr default_acceptance_criteria) ;;
  Ok (system_prompt_text (py_format grouping) (py_format story_format)
        (py_format description_format) (py_format acceptance_criteria)
        block).

End SummaryText.

(** Sample inputs for the summary and the model selection. *)

Definition keys_only_world : world :=
  World [(lit "AI_MODEL", lit "   ");
         (lit "GEMINI_API_KEY", lit "g-123");
         (lit "OPENAI_API_KEY", lit "sk-456")] [] [].

Definition explicit_world : world :=
  World [(lit "AI_MODEL", lit " gpt-4o-mini ");
         (lit "ANTHROPIC_API_KEY", lit "sk-ant-1")] [] [].

Definition listed_backlog : pyval :=
  PDict [(lit "epics",
          PList [PDict [(lit "key", PStr (lit "e1"));
                        (lit "short_description", PStr (lit "x"));
                        (lit "stories",
                         PList [PDict [(lit "gap_id", PStr (lit "G-1"));
                                       (lit "short_description",
                                        PStr (lit "s1"));
                                       (lit "priority", PStr (lit "high"))];
                                PDict [(lit "short_description",
                                        PStr (lit "s2"))]])]])].

Definition keyless_backlog : pyval :=
  PDict [(lit "epics",
          PList [PDict [(lit "short_description", PStr (lit "x"));
                        (lit "stories",
                         PList [PDict [(lit "short_description",
                                        PStr (lit "s1"));
                                       (lit "priority",
                                        PStr (lit "high"))]])]])].

Definition keyless_response : str :=
  qlit "{'epics': [{'short_description': 'x', 'stories': [{'short_description': 's1', 'priority': 'high'}]}]}".

(** Further sample inputs. *)

(** Two thousand opening brackets. *)
Definition deep_response : str := repeat 91%N 2000.




(** [s] is drawn from [t]: the characters of [s] are characters of [t], in
    the order they have there. *)
Inductive subseq : str -> str -> Prop :=
| subseq_nil : subseq [] []
| subseq_drop (c : char) (s t : str) : subseq s t -> subseq s (c :: t)
| subseq_keep (c : char) (s t : str) : subseq s t -> subseq (c :: s) (c :: t).




(* ------------------------------------------------------------------ *)
(** * Properties *)

Unset Implicit Arguments.

Arguments lit : simpl never.
Arguments qlit : simpl never.

(** ** Texts *)

Lemma str_eqb_refl (a : str) : str_eqb a a = true.
Proof.
  induction a as [|x a IH]; simpl; [reflexivity|].
  now rewrite N.eqb_refl, IH.
Qed.

Lemma str_eqb_eq (a b : str) : str_eqb a b = true <-> a = b.
Proof.
  split; [|intros ->; apply str_eqb_refl].
  revert b; induction a as [|x a IH]; intros [|y b]; simpl; try discriminate.
  - reflexivity.
  - intros H. apply andb_true_iff in H as [Hx Hab].
    apply N.eqb_eq in Hx. now rewrite Hx, (IH b Hab).
Qed.

Lemma lookup_here (k : str) (v : pyval) (kvs : list (str * pyval)) :
  lookup k ((k, v) :: kvs) = Some v.
Proof. unfold lookup. now rewrite str_eqb_refl. Qed.

(** ** The monad of runs *)

Lemma bind_lift {A B} (c : outcome A) (k : A -> M B) (w : world) :
  bind (lift c) k w =
  match c with
  | Ok a => k a w
  | Exit msg => (Exit msg, w)
  | Raise e => (Raise e, w)
  end.
Proof. destruct c; reflexivity. Qed.

Lemma ok_run_inv {A} (a b : A) (w w' : world) :
  (Ok a, w) = (Ok b, w') -> a = b /\ w = w'.
Proof. intros H. now injection H. Qed.

Lemma exit_run_inv {A} (a b : str) (w w' : world) :
  (@Exit A a, w) = (Exit b, w') -> a = b /\ w = w'.
Proof. intros H. now injection H. Qed.

Lemma effect_free_ret {A} (a : A) : effect_free (ret a : M A).
Proof. now exists (Ok a). Qed.

Lemma effect_free_lift {A} (c : outcome A) : effect_free (lift c).
Proof. now exists c. Qed.

Lemma effect_free_exit {A} (msg : str) : effect_free (@sys_exit A msg).
Proof. now exists (Exit msg). Qed.

Lemma effect_free_bind {A B} (m : M A) (k : A -> M B) :
  effect_free m -> (forall a, effect_free (k a)) -> effect_free (bind m k).
Proof.
  intros [r Hm] Hk. destruct r as [a|msg|e].
  - destruct (Hk a) as [r' Hr']. exists r'. intros w.
    simpl. now rewrite Hm, Hr'.
  - exists (Exit msg). intros w. simpl. now rewrite Hm.
  - exists (Raise e). intros w. simpl. now rewrite Hm.
Qed.

Create HintDb effects.

#[local] Hint Resolve effect_free_ret effect_free_lift effect_free_exit
  : effects.

Ltac effects :=
  repeat (apply effect_free_bind; [auto with effects | intros ?]);
  auto with effects.

(** The reference runtime keeps the laws. *)
Lemma ref_runtime_laws : PyRuntimeLaws Ref.runtime.
Proof.
  split.
  - eexists. vm_compute. reflexivity.
  - intros ks _. apply Permutation_refl.
Qed.

Section Properties.

Context {R : PyRuntime}.

Lemma build_prompt_effect_free (schema : pyval) (document : str) :
  effect_free (build_prompt schema document).
Proof. unfold build_prompt. effects. Qed.

Lemma extract_json_effect_free (raw : str) : effect_free (extract_json raw).
Proof.
  unfold extract_json. destruct (json_loads (clean_response raw)); effects.
Qed.

(** C8. The Prompt Synthesizer is deterministic: the two prompts depend on
    the schema and the document only.  In whatever state of the process
    (environment, output so far, files) [build_prompt] is called, it gives
    the same result, and it leaves that state as it found it. *)
Theorem build_prompt_deterministic (schema : pyval) (document : str)
    (w1 w2 : world) :
  fst (build_prompt schema document w1) = fst (build_prompt schema document w2)
  /\ snd (build_prompt schema document w1) = w1
  /\ snd (build_prompt schema document w2) = w2.
Proof.
  destruct (build_prompt_effect_free schema document) as [r Hr].
  rewrite (Hr w1), (Hr w2). repeat split.
Qed.

(** C9. A parsed object without the [epics] key is a backlog with no
    epics: the validator ends the run with the no-epics message, exactly as
    it does for the same object with an empty [epics] list. *)
Theorem missing_epics_is_empty_backlog
    (kvs : list (str * pyval)) (schema : pyval) (w : world) :
  lookup (lit "epics") kvs = None ->
  validate_structure (PDict kvs) schema w = (Exit no_epics_message, w)
  /\ validate_structure (PDict ((lit "epics", PList []) :: kvs)) schema w
     = validate_structure (PDict kvs) schema w.
Proof.
  intros H. unfold validate_structure, py_get.
  rewrite !bind_lift, lookup_here, H. split; reflexivity.
Qed.

End Properties.

(** An object that only carries a note has no epics. *)
Lemma missing_epics_is_empty_backlog_witness :
  validate_structure (R := Ref.runtime)
    (PDict [(lit "note", PStr (lit "nothing found"))]) sample_schema w0
  = (Exit no_epics_message, w0).
Proof.
  apply (proj1 (missing_epics_is_empty_backlog (R := Ref.runtime)
                  [(lit "note", PStr (lit "nothing found"))] sample_schema w0
                  eq_refl)).
Defined.

(** ** What validation and persistence do to the world *)

Lemma effect_free_prints_only {A} (m : M A) : effect_free m -> prints_only m.
Proof.
  intros [r Hr] w. exists r, []. rewrite Hr, app_nil_r. now destruct w.
Qed.

Lemma prints_only_print (line : str) : prints_only (print line).
Proof. intros w. now exists (Ok tt), [line]. Qed.

Lemma prints_only_bind {A B} (m : M A) (k : A -> M B) :
  prints_only m -> (forall a, prints_only (k a)) -> prints_only (bind m k).
Proof.
  intros Hm Hk w. destruct (Hm w) as (r & p & E). simpl. rewrite E.
  destruct r as [a|msg|e]; [|now exists (Exit msg), p|now exists (Raise e), p].
  destruct (Hk a (World (env w) (stdout w ++ p) (files w))) as (r' & p' & E').
  rewrite E'. simpl. exists r', (p ++ p'). now rewrite app_assoc.
Qed.

Lemma prints_only_print_all (lines : list str) : prints_only (print_all lines).
Proof.
  induction lines as [|l lines IH].
  - apply effect_free_prints_only, effect_free_ret.
  - change (print_all (l :: lines))
      with (bind (print l) (fun _ => print_all lines)).
    apply prints_only_bind; [apply prints_only_print | intros _; exact IH].
Qed.

Section Frame.

Context {R : PyRuntime}.

Lemma prints_only_report (warnings : list str) : prints_only (report warnings).
Proof.
  destruct warnings as [|x warnings].
  - apply effect_free_prints_only, effect_free_ret.
  - unfold report.
    apply prints_only_bind; [apply prints_only_print | intros _].
    apply prints_only_bind; [apply prints_only_print_all | intros _].
    apply prints_only_print.
Qed.

Lemma prints_only_validate (data schema : pyval) :
  prints_only (validate_structure data schema).
Proof.
  unfold validate_structure.
  apply prints_only_bind;
    [apply effect_free_prints_only, effect_free_lift | intros epics].
  destruct (negb (truthy epics)).
  - apply effect_free_prints_only, effect_free_exit.
  - repeat (apply prints_only_bind;
            [apply effect_free_prints_only, effect_free_lift | intros ?]).
    apply prints_only_report.
Qed.

(** C7. The validator only reads the backlog and only prints: whatever it
    is given and however many warnings it emits, the environment and the
    files are as before.  So when the tail of [main] gets to persist, the
    file holds [json.dump] of exactly the value that [extract_json]
    returned; and whenever validation returns, it does persist. *)
Theorem validation_keeps_backlog (schema : pyval) (raw : str) (w : world) :
  (forall data,
      let w' := snd (validate_structure data schema w) in
      env w' = env w /\ files w' = files w
      /\ exists printed, stdout w' = stdout w ++ printed)
  /\ (forall w', main_tail schema raw w = (Ok tt, w') ->
      exists data,
        extract_json raw w = (Ok data, w)
        /\ fst (validate_structure data schema w) = Ok tt
        /\ files w' = (OUTPUT_FILE, json_dumps data) :: files w)
  /\ (forall data,
        extract_json raw w = (Ok data, w) ->
        fst (validate_structure data schema w) = Ok tt ->
        exists w', main_tail schema raw w = (Ok tt, w')
          /\ files w' = (OUTPUT_FILE, json_dumps data) :: files w).
Proof.
  split; [|split].
  - intros data. destruct (prints_only_validate data schema w) as (r & p & E).
    simpl. rewrite E. simpl. repeat split. now exists p.
  - intros w' H. unfold main_tail in H. simpl in H.
    destruct (extract_json_effect_free raw) as [r Hr]. rewrite Hr in *.
    destruct r as [data|msg|e]; try discriminate.
    exists data. split; [reflexivity|].
    destruct (prints_only_validate data schema w) as (r & p & E).
    rewrite E in *. destruct r as [[]|msg|e]; try discriminate.
    simpl in H. injection H as <-. now split.
  - intros data Hd Hv. unfold main_tail. simpl. rewrite Hd.
    destruct (prints_only_validate data schema w) as (r & p & E).
    rewrite E in *. simpl in Hv. subst r. simpl. eexists. split; reflexivity.
Qed.

End Frame.

(** The backlog with one epic without stories is persisted as parsed, the
    warning notwithstanding. *)
Lemma validation_keeps_backlog_witness :
  exists data,
    extract_json (R := Ref.runtime) one_epic_response w0 = (Ok data, w0)
    /\ fst (validate_structure (R := Ref.runtime) data sample_schema w0)
       = Ok tt
    /\ files (snd (main_tail (R := Ref.runtime) sample_schema
                     one_epic_response w0))
       = [(OUTPUT_FILE (R := Ref.runtime),
           json_dumps (PyRuntime := Ref.runtime) data)].
Proof.
  apply (proj1 (proj2 (validation_keeps_backlog (R := Ref.runtime)
                         sample_schema one_epic_response w0))).
  vm_compute. reflexivity.
Defined.

(** ** The prompt and the schema *)

Section Prompt.

Context {R : PyRuntime}.

Lemma py_get_dict (o : pyval) (k : str) (d : pyval) :
  is_dict o = true -> py_get o k d = Ok (field o k d).
Proof. destruct o; try discriminate. reflexivity. Qed.

Lemma py_get_ok (o : pyval) (k : str) (d v : pyval) :
  py_get o k d = Ok v -> is_dict o = true /\ v = field o k d.
Proof.
  destruct o; try discriminate. simpl. intros H. now injection H as <-.
Qed.

Lemma py_index_has_key (cfg : pyval) (k : str) :
  has_key cfg k = true -> exists g, py_index cfg k = Ok g.
Proof.
  destruct cfg; try discriminate. simpl.
  destruct (lookup k kvs) as [g|]; [now exists g | discriminate].
Qed.

Lemma py_index_no_key (cfg : pyval) (k : str) :
  has_key cfg k = false -> exists e, py_index cfg k = Raise e.
Proof.
  destruct cfg; simpl; try (now exists TypeError).
  destruct (lookup k kvs); [discriminate | now exists KeyError].
Qed.

Lemma priority_line_entry (key : str) (cfg g : pyval) :
  py_index cfg (lit "guidance") = Ok g ->
  priority_line (key, cfg) = Ok (entry_text key g).
Proof. intros H. unfold priority_line. now rewrite H. Qed.

(** The generator of the block yields as soon as every record has its
    guidance, and fails as soon as one has not. *)
Lemma map_priority_line_guided (prios : list (str * pyval)) :
  forallb (fun kv => has_key (snd kv) (lit "guidance")) prios = true ->
  exists entries, map_o priority_line prios = Ok entries.
Proof.
  induction prios as [|[key cfg] prios IH]; simpl; [now exists []|].
  intros H. apply andb_true_iff in H as [Hk Hrest].
  destruct (py_index_has_key _ _ Hk) as [g Hg].
  destruct (IH Hrest) as [entries He].
  rewrite Hg, He. simpl. eauto.
Qed.

Lemma map_priority_line_unguided (prios : list (str * pyval))
    (key : str) (cfg : pyval) :
  In (key, cfg) prios -> has_key cfg (lit "guidance") = false ->
  exists e, map_o priority_line prios = Raise e.
Proof.
  induction prios as [|[key' cfg'] prios IH]; simpl; [contradiction|].
  intros [E|Hin] Hk.
  - injection E as -> ->.
    destruct (py_index_no_key _ _ Hk) as [e He]. rewrite He. now exists e.
  - destruct (py_index cfg' (lit "guidance")) as [g| |e] eqn:Eg; simpl.
    + destruct (IH Hin Hk) as [e He]. rewrite He. now exists e.
    + destruct cfg'; simpl in Eg; try discriminate.
      destruct (lookup (lit "guidance") kvs); discriminate.
    + now exists e.
Qed.

(** What the generator yields: one entry per record, in order. *)
Lemma map_priority_line_entries (prios : list (str * pyval))
    (entries : list str) :
  map_o priority_line prios = Ok entries ->
  Forall2 (fun kv entry =>
             exists g, py_index (snd kv) (lit "guidance") = Ok g
                       /\ entry = entry_text (fst kv) g)
    prios entries.
Proof.
  revert entries. induction prios as [|[key cfg] prios IH]; simpl.
  - intros entries H. injection H as <-. constructor.
  - intros entries H.
    destruct (py_index cfg (lit "guidance")) as [g| |e] eqn:Eg;
      try discriminate.
    simpl in H.
    destruct (map_o priority_line prios) as [rest| |e] eqn:Er;
      try discriminate.
    simpl in H. injection H as <-. constructor; [|now apply IH].
    now exists g.
Qed.

Lemma build_prompt_raises_early (schema : pyval) (document : str) (w : world)
    (prios : list (str * pyval)) :
  field schema (lit "priorities") (PDict []) = PDict prios ->
  (exists e, map_o priority_line prios = Raise e) ->
  exists e, build_prompt schema document w = (Raise e, w).
Proof.
  intros Hp [e He]. unfold build_prompt. rewrite bind_lift.
  destruct schema; try (now exists AttributeError).
  simpl py_get. cbv iota beta. rewrite bind_lift.
  destruct (py_get _ (lit "instructions") _) as [ai| |e'] eqn:Eai;
    [| destruct (match lookup (lit "ai") kvs with Some v => v | None => PDict [] end);
       discriminate
     | now exists e'].
  rewrite bind_lift. simpl in Hp. rewrite Hp. rewrite bind_lift.
  unfold priority_block. simpl. rewrite He. now exists e.
Qed.

(** C10. [build_prompt] indexes [guidance] without a fallback: whenever the
    priorities mapping of a schema holds a record without that key, the
    call raises, whatever else the schema holds; the schema of one priority
    with only a label is such a schema. *)
Theorem build_prompt_needs_guidance (schema : pyval) (document : str)
    (w : world) (prios : list (str * pyval)) (key : str) (cfg : pyval) :
  field schema (lit "priorities") (PDict []) = PDict prios ->
  In (key, cfg) prios ->
  has_key cfg (lit "guidance") = false ->
  exists e, build_prompt schema document w = (Raise e, w).
Proof.
  intros Hp Hin Hk. apply (build_prompt_raises_early _ _ _ _ Hp).
  exact (map_priority_line_unguided _ _ _ Hin Hk).
Qed.

End Prompt.

(** A priority that has a label and no guidance makes the call raise. *)
Lemma build_prompt_needs_guidance_witness :
  exists e,
    build_prompt (R := Ref.runtime) unguided_schema (lit "Some document.") w0
    = (Raise e, w0).
Proof.
  apply (@build_prompt_needs_guidance Ref.runtime unguided_schema
           (lit "Some document.") w0
           [(lit "high", PDict [(lit "label", PStr (lit "High"))])]
           (lit "high") (PDict [(lit "label", PStr (lit "High"))])).
  - reflexivity.
  - simpl. left. reflexivity.
  - reflexivity.
Defined.

(** ** Lines *)

Lemma split_nl_one_line (e : str) : one_line e = true -> split_nl e = [e].
Proof.
  induction e as [|c e IH]; simpl; [reflexivity|].
  intros H. apply andb_true_iff in H as [Hc He].
  apply negb_true_iff in Hc. rewrite Hc, (IH He). reflexivity.
Qed.

Lemma split_nl_app (e rest : str) :
  one_line e = true -> split_nl (e ++ NL :: rest) = e :: split_nl rest.
Proof.
  induction e as [|c e IH]; simpl.
  - intros _. reflexivity.
  - intros H. apply andb_true_iff in H as [Hc He].
    apply negb_true_iff in Hc. rewrite Hc, (IH He). reflexivity.
Qed.

Lemma split_nl_join (e : str) (entries : list str) :
  forallb one_line (e :: entries) = true ->
  split_nl (join [NL] (e :: entries)) = e :: entries.
Proof.
  revert e. induction entries as [|e' entries IH]; intros e H.
  - simpl in *. apply andb_true_iff in H as [He _].
    now apply split_nl_one_line.
  - change (join [NL] (e :: e' :: entries))
      with (e ++ NL :: join [NL] (e' :: entries)).
    simpl in H. apply andb_true_iff in H as [He H].
    rewrite (split_nl_app _ _ He). f_equal. apply IH. exact H.
Qed.

Lemma lines_of_join (entries : list str) :
  forallb one_line entries = true ->
  Forall (fun e => e <> []) entries ->
  lines_of (join [NL] entries) = entries.
Proof.
  intros H Hne. destruct entries as [|e entries]; [reflexivity|].
  unfold lines_of. rewrite (split_nl_join _ _ H).
  inversion Hne as [|? ? He _]; subst.
  destruct entries as [|e' entries]; simpl.
  - destruct e; [contradiction|reflexivity].
  - destruct e; [contradiction|reflexivity].
Qed.

Section PromptContents.

Context {R : PyRuntime}.

Lemma entry_text_nonempty (key : str) (g : pyval) : entry_text key g <> [].
Proof.
  unfold entry_text. intros H. apply (f_equal (@List.length _)) in H.
  rewrite !length_app in H.
  change (List.length (qlit "  - '")) with 5 in H. discriminate.
Qed.

Lemma all_guided_priorities (schema : pyval) :
  all_guided schema = true ->
  exists prios,
    field schema (lit "priorities") (PDict []) = PDict prios
    /\ forallb (fun kv => has_key (snd kv) (lit "guidance")) prios = true.
Proof.
  unfold all_guided.
  destruct (field schema (lit "priorities") (PDict [])); try discriminate.
  intros H. now exists kvs.
Qed.

(** Under the three conditions the call returns, with the instruction
    slots filled from the schema or from the defaults. *)
Lemma build_prompt_returns (schema : pyval) (document : str) (w : world) :
  instructions_shaped schema = true ->
  all_guided schema = true ->
  exists entries,
    map_o priority_line
      match field schema (lit "priorities") (PDict []) with
      | PDict prios => prios
      | _ => []
      end = Ok entries
    /\ build_prompt schema document w =
       (Ok (system_prompt_text
              (instruction_text schema (lit "grouping") default_grouping)
              (instruction_text schema (lit "story_format")
                 default_story_format)
              (instruction_text schema (lit "description_format")
                 default_description_format)
              (instruction_text schema (lit "acceptance_criteria")
                 default_acceptance_criteria)
              (join [NL] entries),
            user_prompt_text document), w).
Proof.
  intros Hi Hg. unfold instructions_shaped in Hi.
  apply andb_true_iff in Hi as [Hi Hins]. apply andb_true_iff in Hi as [Hs Hai].
  destruct (all_guided_priorities _ Hg) as (prios & Hp & Hall).
  destruct (map_priority_line_guided _ Hall) as [entries He].
  exists entries. rewrite Hp. split; [exact He|].
  unfold build_prompt.
  rewrite bind_lift, (py_get_dict _ _ _ Hs).
  rewrite bind_lift, (py_get_dict _ _ _ Hai).
  rewrite bind_lift, (py_get_dict _ _ _ Hs), Hp.
  rewrite bind_lift. unfold priority_block. simpl py_items.
  cbn [bind outcome_monad]. rewrite He. cbn [bind outcome_monad].
  rewrite !bind_lift, !(py_get_dict _ _ _ Hins). reflexivity.
Qed.

(** C6, amended. When the instruction part of the schema is readable ([ai]
    and [ai.instructions] absent or mappings) and every priority record has
    its guidance, [build_prompt] returns; each instruction slot of the
    system prompt holds the schema's text, and for a missing key the
    built-in default, which is never empty. *)
Theorem build_prompt_defaults (schema : pyval) (document : str) (w : world) :
  instructions_shaped schema = true ->
  all_guided schema = true ->
  (exists block,
      build_prompt schema document w =
      (Ok (system_prompt_text
             (instruction_text schema (lit "grouping") default_grouping)
             (instruction_text schema (lit "story_format")
                default_story_format)
             (instruction_text schema (lit "description_format")
                default_description_format)
             (instruction_text schema (lit "acceptance_criteria")
                default_acceptance_criteria)
             block,
           user_prompt_text document), w))
  /\ (forall key default,
        has_key (instructions_of schema) key = false ->
        instruction_text schema key default = default)
  /\ default_grouping <> [] /\ default_story_format <> []
  /\ default_description_format <> [] /\ default_acceptance_criteria <> [].
Proof.
  intros Hi Hg. split; [|split].
  - destruct (build_prompt_returns schema document w Hi Hg) as (es & _ & E).
    now exists (join [NL] es).
  - intros key default Hk. unfold instruction_text, field.
    unfold has_key in Hk. destruct (instructions_of schema); try reflexivity.
    destruct (lookup key kvs); [discriminate | reflexivity].
  - repeat split; intros H; apply (f_equal (@List.length _)) in H;
      vm_compute in H; discriminate.
Qed.

Lemma build_prompt_ok_inv (schema : pyval) (document : str) (w w' : world)
    (system user : str) :
  build_prompt schema document w = (Ok (system, user), w') ->
  exists prios entries,
    is_dict schema = true
    /\ field schema (lit "priorities") (PDict []) = PDict prios
    /\ map_o priority_line prios = Ok entries
    /\ system =
       system_prompt_text
         (instruction_text schema (lit "grouping") default_grouping)
         (instruction_text schema (lit "story_format") default_story_format)
         (instruction_text schema (lit "description_format")
            default_description_format)
         (instruction_text schema (lit "acceptance_criteria")
            default_acceptance_criteria)
         (join [NL] entries).
Proof.
  unfold build_prompt. rewrite bind_lift.
  destruct (py_get schema (lit "ai") (PDict [])) as [ai_section| |]
    eqn:E1; try discriminate.
  apply py_get_ok in E1 as [Hs ->].
  rewrite bind_lift.
  destruct (py_get _ (lit "instructions") (PDict [])) as [ai| |] eqn:E2;
    try discriminate.
  apply py_get_ok in E2 as [Hai ->].
  rewrite bind_lift, (py_get_dict _ _ _ Hs), bind_lift.
  unfold priority_block.
  destruct (field schema (lit "priorities") (PDict [])) as [| | | | | |prios]
    eqn:Ep; try discriminate.
  simpl py_items. cbn [bind outcome_monad].
  destruct (map_o priority_line prios) as [entries| |] eqn:Ee;
    try discriminate.
  cbn [bind outcome_monad]. rewrite bind_lift.
  destruct (py_get _ (lit "grouping") _) as [g| |] eqn:E3; try discriminate.
  apply py_get_ok in E3 as [Hins ->].
  rewrite !bind_lift, !(py_get_dict _ _ _ Hins).
  intros H. apply ok_run_inv in H as [H _].
  apply pair_equal_spec in H as [<- _]. now exists prios, entries.
Qed.

(** C3, amended. Whenever [build_prompt] returns, the vocabulary block of
    the system prompt is the join, by newlines, of exactly one entry (key
    and guidance) per priority key, in the schema's order, and the keys of
    the entries are the keys the validator checks priorities against; the
    entries are the lines of the block whenever each of them is a single
    line. *)
Theorem priority_block_matches_validator (schema : pyval) (document : str)
    (w w' : world) (system user : str) :
  build_prompt schema document w = (Ok (system, user), w') ->
  exists prios entries,
    field schema (lit "priorities") (PDict []) = PDict prios
    /\ valid_priorities schema = Ok (map fst prios)
    /\ Forall2 (fun kv entry =>
                  exists g, py_index (snd kv) (lit "guidance") = Ok g
                            /\ entry = entry_text (fst kv) g)
         prios entries
    /\ List.length entries = List.length (map fst prios)
    /\ system =
       system_prompt_text
         (instruction_text schema (lit "grouping") default_grouping)
         (instruction_text schema (lit "story_format") default_story_format)
         (instruction_text schema (lit "description_format")
            default_description_format)
         (instruction_text schema (lit "acceptance_criteria")
            default_acceptance_criteria)
         (join [NL] entries)
    /\ (forallb one_line entries = true ->
        lines_of (join [NL] entries) = entries).
Proof.
  intros H.
  destruct (build_prompt_ok_inv _ _ _ _ _ _ H) as (prios & entries & Hs & Hp & He & ->).
  exists prios, entries.
  pose proof (map_priority_line_entries _ _ He) as HF.
  split; [exact Hp|]. split.
  { unfold valid_priorities. rewrite (py_get_dict _ _ _ Hs), Hp. reflexivity. }
  split; [exact HF|]. split.
  { rewrite length_map. symmetry. exact (Forall2_length HF). }
  split; [reflexivity|].
  intros Hl. apply lines_of_join; [exact Hl|].
  clear -HF. induction HF as [|kv e ? ? (g & _ & ->) _ IH]; constructor.
  - apply entry_text_nonempty.
  - exact IH.
Qed.

End PromptContents.

(** With [instructions:] left blank in the schema all four instruction
    keys are missing, and the call raises instead of using the defaults;
    so it does on a schema without any [ai] part whose one priority has no
    guidance. *)
Lemma build_prompt_defaults_counterexample :
  has_key (instructions_of blank_instructions_schema) (lit "grouping") = false
  /\ has_key (instructions_of blank_instructions_schema) (lit "story_format")
     = false
  /\ all_guided blank_instructions_schema = true
  /\ build_prompt (R := Ref.runtime) blank_instructions_schema
       (lit "Some document.") w0
     = (Raise AttributeError, w0)
  /\ has_key unguided_schema (lit "ai") = false
  /\ build_prompt (R := Ref.runtime) unguided_schema (lit "Some document.")
       w0
     = (Raise KeyError, w0).
Proof. repeat split; vm_compute; reflexivity. Qed.

(** The sample schema gives its own grouping text; the three other
    instruction keys are missing and get the defaults. *)
Lemma build_prompt_defaults_witness :
  exists block,
    build_prompt (R := Ref.runtime) sample_schema (lit "Some document.") w0
    = (Ok (system_prompt_text (lit "Group by theme.") default_story_format
             default_description_format default_acceptance_criteria block,
           user_prompt_text (lit "Some document.")), w0).
Proof.
  assert (Hi : instructions_shaped sample_schema = true)
    by (vm_compute; reflexivity).
  assert (Hg : all_guided sample_schema = true) by (vm_compute; reflexivity).
  destruct (build_prompt_defaults (R := Ref.runtime) sample_schema
              (lit "Some document.") w0 Hi Hg) as [[block H] _].
  exists block. rewrite H. vm_compute. reflexivity.
Defined.

(** A guidance of two lines gives a block of two lines for one key. *)
Lemma priority_block_lines_counterexample :
  build_prompt (R := Ref.runtime) two_line_schema (lit "Some document.") w0
  = (Ok (system_prompt_text default_grouping default_story_format
           default_description_format default_acceptance_criteria
           two_line_block,
         user_prompt_text (lit "Some document.")), w0)
  /\ priority_keys two_line_schema = [lit "high"]
  /\ List.length (lines_of two_line_block) = 2.
Proof. repeat split; vm_compute; reflexivity. Qed.

(** The block of the sample schema: three keys, three entries, three
    lines, and the validator's keys are those three. *)
Lemma priority_block_matches_validator_witness :
  valid_priorities sample_schema
  = Ok [lit "critical"; lit "high"; lit "low"]
  /\ exists entries,
       List.length entries = 3 /\ lines_of (join [NL] entries) = entries.
Proof.
  destruct (priority_block_matches_validator (R := Ref.runtime) sample_schema
              (lit "Some document.") w0 w0
              (system_prompt_text (lit "Group by theme.") default_story_format
                 default_description_format default_acceptance_criteria
                 (join [NL]
                    [entry_text (R := Ref.runtime) (lit "critical")
                       (PStr (lit "Blocks release"));
                     entry_text (R := Ref.runtime) (lit "high")
                       (PStr (lit "Important"));
                     entry_text (R := Ref.runtime) (lit "low")
                       (PStr (lit "Nice to have"))]))
              (user_prompt_text (lit "Some document.")))
    as (prios & entries & Hp & Hv & HF & Hlen & Hsys & Hlines).
  - vm_compute. reflexivity.
  - injection Hp as <-. split; [exact Hv|].
    exists entries. split; [exact Hlen|]. apply Hlines.
    repeat (let kv := fresh in let e := fresh in
            inversion HF as [|kv e ? ? (? & Hg & ->) HF']; subst; clear HF;
            rename HF' into HF; injection Hg as <-).
    inversion HF. vm_compute. reflexivity.
Defined.

(** ** The validator on a backlog of the expected shape *)

Section Validator.

Context {R : PyRuntime}.

Lemma in_set_hashable (p : pyval) (valid : list str) :
  hashable p = true ->
  in_set p valid =
  Ok match p with PStr s => existsb (str_eqb s) valid | _ => false end.
Proof. destruct p; try discriminate; reflexivity. Qed.

Lemma story_step_shaped (valid warnings : list str) (story : pyval) :
  story_shaped story = true ->
  story_step valid warnings story =
  Ok (warnings ++
      if priority_known valid story then []
      else [story_warning
              (field story (lit "short_description") (PStr (lit "?")))
              (field story (lit "priority") (PStr [])) valid]).
Proof.
  unfold story_shaped. intros H. apply andb_true_iff in H as [Hd Hh].
  unfold story_step, priority_known.
  rewrite (py_get_dict _ _ _ Hd). cbn [bind outcome_monad].
  rewrite (in_set_hashable _ _ Hh). cbn [bind outcome_monad].
  destruct (match field story (lit "priority") (PStr []) with
            | PStr s => existsb (str_eqb s) valid
            | _ => false
            end); cbn [negb].
  - now rewrite app_nil_r.
  - now rewrite (py_get_dict _ _ _ Hd).
Qed.

Lemma fold_story_step (valid : list str) (stories : list pyval) :
  forallb story_shaped stories = true ->
  forall warnings,
    fold_o (story_step valid) stories warnings =
    Ok (warnings ++
        map (fun story =>
               story_warning
                 (field story (lit "short_description") (PStr (lit "?")))
                 (field story (lit "priority") (PStr [])) valid)
          (filter (fun story => negb (priority_known valid story)) stories)).
Proof.
  induction stories as [|story stories IH]; intros H warnings.
  - simpl. now rewrite app_nil_r.
  - simpl in H. apply andb_true_iff in H as [Hs Hrest].
    cbn [fold_o]. rewrite (story_step_shaped _ _ _ Hs).
    cbn [bind outcome_monad]. rewrite (IH Hrest). cbn [filter].
    destruct (priority_known valid story); cbn [negb map].
    + now rewrite app_nil_r.
    + now rewrite <- app_assoc.
Qed.

Lemma epic_step_shaped (valid warnings : list str) (epic : pyval) :
  epic_shaped epic = true ->
  epic_step valid warnings epic = Ok (warnings ++ warnings_of_epic valid epic).
Proof.
  unfold epic_shaped. intros H. apply andb_true_iff in H as [Hd Hst].
  destruct epic as [| | | | | |kvs]; try discriminate.
  unfold epic_step, warnings_of_epic, no_stories, stories_of, py_get, field
    in *.
  cbn [bind outcome_monad].
  destruct (lookup (lit "stories") kvs) as [st|]; cbn [truthy negb].
  - destruct st as [| | | | |stories|]; try discriminate.
    destruct stories as [|story stories].
    + cbn [truthy List.length Nat.eqb negb bind outcome_monad py_iter fold_o
           filter map].
      now rewrite app_nil_r.
    + cbn [truthy List.length Nat.eqb negb bind outcome_monad py_iter].
      rewrite (fold_story_step _ _ Hst). reflexivity.
  - cbn [bind outcome_monad py_iter fold_o filter map].
    now rewrite app_nil_r.
Qed.

Lemma fold_epic_step (valid : list str) (epics : list pyval) :
  forallb epic_shaped epics = true ->
  forall warnings,
    fold_o (epic_step valid) epics warnings =
    Ok (warnings ++ expected_warnings valid epics).
Proof.
  induction epics as [|epic epics IH]; intros H warnings.
  - simpl. now rewrite app_nil_r.
  - simpl in H. apply andb_true_iff in H as [He Hrest].
    cbn [fold_o]. rewrite (epic_step_shaped _ _ _ He).
    cbn [bind outcome_monad]. rewrite (IH Hrest).
    unfold expected_warnings. cbn [flat_map]. now rewrite <- app_assoc.
Qed.

Lemma print_all_run (lines : list str) (w : world) :
  print_all lines w = (Ok tt, World (env w) (stdout w ++ lines) (files w)).
Proof.
  revert w. induction lines as [|l lines IH]; intros w.
  - simpl. rewrite app_nil_r. now destruct w.
  - change (print_all (l :: lines) w)
      with (print_all lines (World (env w) (stdout w ++ [l]) (files w))).
    rewrite IH. simpl. now rewrite <- app_assoc.
Qed.

Lemma report_run (warnings : list str) (w : world) :
  report warnings w =
  (Ok tt, World (env w) (stdout w ++ printed_report warnings) (files w)).
Proof.
  destruct warnings as [|x warnings].
  - simpl. rewrite app_nil_r. now destruct w.
  - unfold report, printed_report.
    change ((print warnings_header;; print_all (x :: warnings);; print []) w)
      with (bind (print_all (x :: warnings)) (fun _ => print [])
              (World (env w) (stdout w ++ [warnings_header]) (files w))).
    cbn [bind M_monad]. rewrite print_all_run. unfold print.
    cbn [env stdout files]. now rewrite <- !app_assoc.
Qed.

Lemma valid_priorities_shaped (schema : pyval) :
  schema_shaped schema = true ->
  valid_priorities schema = Ok (priority_keys schema).
Proof.
  unfold schema_shaped, valid_priorities, priority_keys. intros H.
  apply andb_true_iff in H as [Hs Hp]. rewrite (py_get_dict _ _ _ Hs).
  cbn [bind outcome_monad].
  destruct (field schema (lit "priorities") (PDict [])); try discriminate.
  reflexivity.
Qed.

(** The validator on shaped inputs, in one equation. *)
Lemma validate_structure_shaped (data schema : pyval) (w : world) :
  backlog_shaped data = true ->
  schema_shaped schema = true ->
  validate_structure data schema w =
  match epics_of data with
  | [] => (Exit no_epics_message, w)
  | epics =>
      (Ok tt,
       World (env w)
         (stdout w
          ++ printed_report (expected_warnings (priority_keys schema) epics))
         (files w))
  end.
Proof.
  unfold backlog_shaped, epics_of. intros Hb Hs.
  apply andb_true_iff in Hb as [Hd He].
  unfold validate_structure. rewrite bind_lift, (py_get_dict _ _ _ Hd).
  destruct (field data (lit "epics") (PList [])) as [| | | | |epics|];
    try discriminate.
  destruct epics as [|epic epics]; [reflexivity|].
  cbn [truthy List.length Nat.eqb negb].
  rewrite bind_lift, (valid_priorities_shaped _ Hs).
  rewrite bind_lift. cbn [py_iter]. rewrite bind_lift.
  rewrite (fold_epic_step _ _ He). cbn [app]. apply report_run.
Qed.

Lemma expected_warnings_count (valid : list str) (epics : list pyval) :
  List.length (expected_warnings valid epics) =
  List.length (filter no_stories epics)
  + List.length (filter (fun story => negb (priority_known valid story))
                   (flat_map stories_of epics)).
Proof.
  unfold expected_warnings.
  induction epics as [|epic epics IH]; [reflexivity|].
  cbn [flat_map filter]. rewrite filter_app, !length_app, IH.
  unfold warnings_of_epic. rewrite length_app, length_map.
  destruct (no_stories epic); cbn [List.length]; lia.
Qed.







End Validator.

Section ValidatorClaims.

Context {R : PyRuntime}.

(** C2, amended. On a parsed value of the expected shape (an object whose
    [epics], when there, is a list of objects whose [stories], when there,
    is a list of objects with a scalar [priority]) and a schema whose
    [priorities], when there, is a mapping with text keys, the validator
    ends the run with the no-epics message exactly when there is no epic,
    and otherwise returns, having at most printed warnings. *)
Theorem validate_structure_hard_fail (data schema : pyval) (w : world) :
  backlog_shaped data = true ->
  schema_shaped schema = true ->
  (epics_of data = [] <->
   validate_structure data schema w = (Exit no_epics_message, w))
  /\ (epics_of data <> [] ->
      exists printed,
        validate_structure data schema w =
        (Ok tt, World (env w) (stdout w ++ printed) (files w))).
Proof.
  intros Hb Hs. rewrite (validate_structure_shaped _ _ w Hb Hs).
  destruct (epics_of data) as [|epic epics].
  - split; [now split | intros H; now contradiction H].
  - split.
    + split; intros H; discriminate.
    + intros _. eexists. reflexivity.
Qed.


End ValidatorClaims.

(** The model answered with [stories: null]: one epic, and the run dies of
    a TypeError, which is neither the no-epics exit nor a warning. *)
Lemma validate_structure_hard_fail_counterexample :
  extract_json (R := Ref.runtime) null_stories_response w0
  = (Ok null_stories_backlog, w0)
  /\ List.length (epics_of null_stories_backlog) = 1
  /\ validate_structure (R := Ref.runtime) null_stories_backlog sample_schema
       w0
     = (Raise TypeError, w0)
  /\ main_tail (R := Ref.runtime) sample_schema null_stories_response w0
     = (Raise TypeError, w0).
Proof. repeat split; vm_compute; reflexivity. Qed.

(** The fenced empty backlog of the specification ends with the no-epics
    message. *)
Lemma validate_structure_hard_fail_witness :
  validate_structure (R := Ref.runtime) (PDict [(lit "epics", PList [])])
    sample_schema w0
  = (Exit no_epics_message, w0).
Proof.
  apply (proj1 (validate_structure_hard_fail (R := Ref.runtime)
                  (PDict [(lit "epics", PList [])]) sample_schema w0
                  eq_refl eq_refl)).
  reflexivity.
Defined.



(** ** Trimming *)

Lemma lstrip_nonspace (c : char) (t : str) :
  is_space c = false -> lstrip (c :: t) = c :: t.
Proof. intros H. simpl. now rewrite H. Qed.

Lemma lstrip_head (s : str) (c : char) (t : str) :
  lstrip s = c :: t -> is_space c = false.
Proof.
  induction s as [|x s IH]; simpl; [discriminate|].
  destruct (is_space x) eqn:E; [exact IH|].
  intros H. injection H as <- _. exact E.
Qed.

Lemma lstrip_idem (s : str) : lstrip (lstrip s) = lstrip s.
Proof.
  destruct (lstrip s) as [|c t] eqn:E; [reflexivity|].
  apply lstrip_nonspace. exact (lstrip_head _ _ _ E).
Qed.

Lemma rstrip_cons_nonspace (c : char) (t : str) :
  is_space c = false -> rstrip (c :: t) = c :: rstrip t.
Proof. intros H. simpl. destruct (rstrip t); [now rewrite H | reflexivity]. Qed.

Lemma rstrip_idem (s : str) : rstrip (rstrip s) = rstrip s.
Proof.
  induction s as [|c s IH]; [reflexivity|].
  simpl. destruct (rstrip s) as [|x t] eqn:E.
  - destruct (is_space c) eqn:Ec; [reflexivity|]. simpl. now rewrite Ec.
  - change (rstrip (c :: x :: t)) with
      (match rstrip (x :: t) with
       | [] => if is_space c then [] else [c]
       | t' => c :: t'
       end).
    now rewrite IH.
Qed.

Lemma lstrip_rstrip (s : str) : lstrip (rstrip s) = rstrip (lstrip s).
Proof.
  induction s as [|c s IH]; [reflexivity|].
  destruct (is_space c) eqn:Ec.
  - change (lstrip (c :: s)) with (if is_space c then lstrip s else c :: s).
    rewrite Ec, <- IH.
    change (rstrip (c :: s))
      with (match rstrip s with
            | [] => if is_space c then [] else [c]
            | t' => c :: t'
            end).
    destruct (rstrip s) as [|x t]; [now rewrite Ec|].
    change (lstrip (c :: x :: t))
      with (if is_space c then lstrip (x :: t) else c :: x :: t).
    now rewrite Ec.
  - rewrite (lstrip_nonspace c s Ec), (rstrip_cons_nonspace c s Ec).
    now apply lstrip_nonspace.
Qed.

Lemma strip_idem (s : str) : strip (strip s) = strip s.
Proof.
  unfold strip. now rewrite lstrip_rstrip, lstrip_idem, rstrip_idem.
Qed.

Lemma rstrip_app_space (s : str) (c : char) :
  is_space c = true -> rstrip (s ++ [c]) = rstrip s.
Proof.
  intros Hc. induction s as [|x s IH]; simpl.
  - now rewrite Hc.
  - now rewrite IH.
Qed.





Lemma lstrip_app_blank (s t : str) :
  lstrip s = [] -> lstrip (s ++ t) = lstrip t.
Proof.
  induction s as [|c s IH]; [reflexivity|].
  simpl. destruct (is_space c); [exact IH | discriminate].
Qed.



Lemma lstrip_blank (a : str) : blank a = true -> lstrip a = [].
Proof.
  induction a as [|c a IH]; [reflexivity|].
  cbn [blank forallb]. intros H. apply andb_true_iff in H as [Hc Ha].
  simpl. rewrite Hc. now apply IH.
Qed.

Lemma rstrip_app_blank (b : str) :
  blank b = true -> forall t, rstrip (t ++ b) = rstrip t.
Proof.
  induction b as [|c b IH]; intros H t; [now rewrite app_nil_r|].
  cbn [blank forallb] in H. apply andb_true_iff in H as [Hc Hb].
  change (t ++ c :: b) with (t ++ [c] ++ b).
  rewrite app_assoc, (IH Hb). now apply rstrip_app_space.
Qed.
















(** ** Occurrences of a text *)

Lemma contains_step (p : str) (c : char) (s : str) :
  contains p (c :: s) = starts_with p (c :: s) || contains p s.
Proof. reflexivity. Qed.




Lemma contains_cons (p : str) (c : char) (s : str) :
  contains p s = true -> contains p (c :: s) = true.
Proof.
  intros H. change (contains p (c :: s))
    with (starts_with p (c :: s) || contains p s). rewrite H. apply orb_true_r.
Qed.







(** ** The substitutions *)


























Lemma starts_with_self (p s : str) : starts_with p (p ++ s) = true.
Proof.
  induction p as [|x p IH]; [reflexivity|]. simpl.
  now rewrite N.eqb_refl, IH.
Qed.

(** A part of a text occurs in it. *)
Lemma contains_part (p a b : str) : contains p (a ++ p ++ b) = true.
Proof.
  induction a as [|c a IH].
  - simpl app. destruct (p ++ b) as [|x r] eqn:E.
    + destruct p; [reflexivity | discriminate].
    + rewrite contains_step, <- E, starts_with_self. reflexivity.
  - change ((c :: a) ++ p ++ b) with (c :: (a ++ p ++ b)).
    now apply contains_cons.
Qed.

Lemma contains_part3 (p a b c d : str) :
  contains p (a ++ b ++ c ++ p ++ d) = true.
Proof. rewrite 2!app_assoc. apply contains_part. Qed.









(** *** The closing pattern *)



















Section Extraction.

Context {R : PyRuntime}.


(** C4, amended. When the decoder rejects the cleaned text with a
    JSONDecodeError, [extract_json] ends the run with a message that
    carries the decoder's message and, after it, the first 500 characters
    of the cleaned text; an empty cleaned text is rejected in this way and
    takes the same path; and the run is ended by [extract_json] in no other
    way.  An exception of the decoder that is no JSONDecodeError is not
    caught: the run ends with it. *)
Theorem extract_json_parse_failure {L : PyRuntimeLaws R}
    (raw : str) (w : world) :
  (forall exc, json_loads (clean_response raw) = DecodeError exc ->
     extract_json raw w =
     (Exit (lit "
Failed to parse the AI response as JSON: " ++ exc ++ lit "

First 500 characters of the response:
" ++ firstn 500 (clean_response raw) ++ lit "

Try running again — this can happen if the model wrapped the output in unexpected text."),
      w))
  /\ (clean_response raw = [] ->
      exists exc msg,
        json_loads (clean_response raw) = DecodeError exc
        /\ extract_json raw w = (Exit msg, w)
        /\ contains exc msg = true)
  /\ (forall msg w',
        extract_json raw w = (Exit msg, w') ->
        w' = w
        /\ exists exc,
             json_loads (clean_response raw) = DecodeError exc
             /\ contains exc msg = true
             /\ contains (firstn 500 (clean_response raw)) msg = true)
  /\ (forall e, json_loads (clean_response raw) = DecodeFailure e ->
                extract_json raw w = (Raise e, w)).
Proof.
  assert (Hexit : forall msg w',
            extract_json raw w = (Exit msg, w') ->
            w' = w
            /\ exists exc,
                 json_loads (clean_response raw) = DecodeError exc
                 /\ contains exc msg = true
                 /\ contains (firstn 500 (clean_response raw)) msg = true).
  { intros msg w'. unfold extract_json.
    destruct (json_loads (clean_response raw)) as [v|exc|e];
      [intros H; discriminate H | | intros H; discriminate H].
    intros H. apply exit_run_inv in H as [<- <-].
    split; [reflexivity|]. exists exc. split; [reflexivity|].
    unfold parse_failure_message. split.
    - apply contains_part.
    - apply contains_part3. }
  split; [|split; [|split]].
  - intros exc H. unfold extract_json. rewrite H. reflexivity.
  - intros E. destruct json_loads_empty as [exc Hexc].
    rewrite E.
    assert (Hrun : extract_json raw w
                   = (Exit (parse_failure_message exc []), w)).
    { unfold extract_json. rewrite E, Hexc. reflexivity. }
    exists exc, (parse_failure_message exc []).
    split; [exact Hexc|]. split; [exact Hrun|].
    unfold parse_failure_message. apply contains_part.
  - exact Hexit.
  - intros e H. unfold extract_json. now rewrite H.
Qed.

End Extraction.



(** Two thousand opening brackets are no JSON text, and the decoder does
    not reject them with a JSONDecodeError: it exceeds the recursion limit,
    and the run ends with the RecursionError instead of the parse-failure
    message. *)
Lemma extract_json_parse_failure_counterexample :
  clean_response deep_response = deep_response
  /\ json_loads (PyRuntime := Ref.runtime) (clean_response deep_response)
     = DecodeFailure RecursionError
  /\ extract_json (R := Ref.runtime) deep_response w0
     = (Raise RecursionError, w0).
Proof. repeat split; vm_compute; reflexivity. Qed.

(** The refusal of the specification's example is reported with the
    decoder's message and the refusal itself as excerpt. *)
Lemma extract_json_parse_failure_witness :
  extract_json (R := Ref.runtime) refusal_response w0 =
  (Exit (lit "
Failed to parse the AI response as JSON: Expecting value: line 1 column 1 (char 0)

First 500 characters of the response:
Sorry, I can't help with that.

Try running again — this can happen if the model wrapped the output in unexpected text."),
   w0).
Proof.
  assert (H : json_loads (PyRuntime := Ref.runtime)
                (clean_response refusal_response)
              = DecodeError (lit "Expecting value: line 1 column 1 (char 0)"))
    by (vm_compute; reflexivity).
  rewrite (proj1 (extract_json_parse_failure (R := Ref.runtime)
                    (L := ref_runtime_laws) refusal_response w0) _ H).
  vm_compute. reflexivity.
Defined.

(* ------------------------------------------------------------------ *)
(** * Further properties of the program *)

(** ** Model selection *)

Lemma bind_getenv {B} (k default : str) (f : str -> M B) (w : world) :
  bind (getenv k default) f w
  = f match env_get k (env w) with Some v => v | None => default end w.
Proof. reflexivity. Qed.

(** The scan of a list of defaults ends at the first key that is set. *)
Lemma detect_model_find (defaults : list (str * str)) (w : world) :
  detect_model defaults w =
  match find (fun km => env_set w (fst km)) defaults with
  | Some (k, m) =>
      (Ok m, World (env w) (stdout w ++ [detected_line k m]) (files w))
  | None => (Exit no_model_message, w)
  end.
Proof.
  induction defaults as [|[k m] defaults IH]; [reflexivity|].
  cbn [detect_model find fst]. rewrite bind_getenv. unfold env_set at 1.
  destruct (nonempty (strip _)); [reflexivity | exact IH].
Qed.

Lemma resolve_model_unset (w : world) :
  env_set w (lit "AI_MODEL") = false ->
  resolve_model w = detect_model MODEL_DEFAULTS w.
Proof.
  intros H. unfold resolve_model. rewrite bind_getenv.
  unfold env_set in H. now rewrite H.
Qed.

Lemma resolve_model_set (w : world) :
  env_set w (lit "AI_MODEL") = true ->
  resolve_model w =
  (Ok (strip match env_get (lit "AI_MODEL") (env w) with
             | Some v => v
             | None => []
             end), w).
Proof.
  intros H. unfold resolve_model. rewrite bind_getenv.
  unfold env_set in H. now rewrite H.
Qed.

(** X1. An [AI_MODEL] that is more than whitespace wins: the model is its
    trimmed value, whatever API keys are set, and nothing is printed. *)
Theorem resolve_model_explicit (w : world) :
  env_set w (lit "AI_MODEL") = true ->
  resolve_model w =
  (Ok (strip match env_get (lit "AI_MODEL") (env w) with
             | Some v => v
             | None => []
             end), w).
Proof. apply resolve_model_set. Qed.


(** X3. The selection gives up exactly when neither [AI_MODEL] nor any of
    the six API keys is set to more than whitespace; it then ends the run
    with the setup message and has printed nothing.  It never raises. *)
Theorem resolve_model_exit (w : world) :
  (resolve_model w = (Exit no_model_message, w) <->
   env_set w (lit "AI_MODEL") = false
   /\ forallb (fun km => negb (env_set w (fst km))) MODEL_DEFAULTS = true)
  /\ (forall e w', resolve_model w <> (Raise e, w'))
  /\ (forall msg w', resolve_model w = (Exit msg, w') ->
        msg = no_model_message /\ w' = w).
Proof.
  assert (Hnone : find (fun km => env_set w (fst km)) MODEL_DEFAULTS = None
                  <-> forallb (fun km => negb (env_set w (fst km)))
                        MODEL_DEFAULTS = true).
  { generalize MODEL_DEFAULTS. intros l.
    induction l as [|km l IH]; [now split|].
    cbn [find forallb]. destruct (env_set w (fst km)); cbn [negb andb].
    - split; discriminate.
    - exact IH. }
  destruct (env_set w (lit "AI_MODEL")) eqn:Hm.
  - rewrite (resolve_model_set w Hm). split; [|split].
    + split; [discriminate | intros [H _]; discriminate].
    + intros e w' H. discriminate.
    + intros msg w' H. discriminate.
  - rewrite (resolve_model_unset w Hm), detect_model_find.
    destruct (find _ MODEL_DEFAULTS) as [[k m]|] eqn:Hf; (split; [|split]).
    + split; [discriminate|]. intros [_ H]. apply Hnone in H. discriminate.
    + intros e w' H. discriminate.
    + intros msg w' H. discriminate.
    + split; [|reflexivity]. intros _. split; [reflexivity|].
      now apply Hnone.
    + intros e w' H. discriminate.
    + intros msg w' H. injection H as <- <-. now split.
Qed.

(** X4. Whenever the selection returns, the model is not empty and has no
    whitespace around it, and neither the environment nor the files have
    changed. *)
Theorem resolve_model_result (w w' : world) (model : str) :
  resolve_model w = (Ok model, w') ->
  model <> [] /\ strip model = model
  /\ env w' = env w /\ files w' = files w.
Proof.
  destruct (env_set w (lit "AI_MODEL")) eqn:Hm.
  - rewrite (resolve_model_set w Hm). intros H.
    injection H as <- <-. unfold env_set, nonempty in Hm.
    repeat split; [|apply strip_idem].
    intros E. rewrite E in Hm. discriminate.
  - rewrite (resolve_model_unset w Hm), detect_model_find.
    destruct (find _ MODEL_DEFAULTS) as [[k m]|] eqn:Hf; [|discriminate].
    intros H. injection H as <- <-. apply find_some in Hf as [Hin _].
    cbn [env files].
    assert (Hm' : m <> [] /\ strip m = m).
    { unfold MODEL_DEFAULTS in Hin. cbn [In] in Hin.
      repeat (destruct Hin as [Hin|Hin];
              [injection Hin as <- <-; split;
               [intros E; apply (f_equal (@List.length _)) in E;
                vm_compute in E; discriminate
               | vm_compute; reflexivity] |]).
      contradiction. }
    destruct Hm' as [H1 H2]. repeat split; assumption.
Qed.


(** The explicit model is used, trimmed, though an API key is set too. *)
Lemma resolve_model_explicit_witness :
  resolve_model explicit_world = (Ok (lit "gpt-4o-mini"), explicit_world).
Proof.
  rewrite (resolve_model_explicit explicit_world).
  - vm_compute. reflexivity.
  - vm_compute. reflexivity.
Defined.

(** The detected model is a clean identifier. *)
Lemma resolve_model_result_witness :
  lit "gpt-4o" <> [] /\ strip (lit "gpt-4o") = lit "gpt-4o".
Proof.
  destruct (resolve_model_result keys_only_world
              (World (env keys_only_world)
                 [detected_line (lit "OPENAI_API_KEY") (lit "gpt-4o")] [])
              (lit "gpt-4o")) as (H1 & H2 & _).
  - vm_compute. reflexivity.
  - now split.
Defined.

(** ** The cleaned text *)

Lemma strip_padded (a s b : str) :
  blank a = true -> blank b = true -> strip (a ++ s ++ b) = strip s.
Proof.
  intros Ha Hb. unfold strip.
  rewrite (lstrip_app_blank a (s ++ b) (lstrip_blank a Ha)).
  rewrite <- !lstrip_rstrip. now rewrite (rstrip_app_blank b Hb).
Qed.

Lemma re_sub_length (m : bool -> str -> option nat) (s : str) :
  forall k bol,
    List.length (re_sub_empty m k bol s) <= List.length s.
Proof.
  induction s as [|c s IH]; intros k bol; [simpl; lia|].
  cbn [re_sub_empty].
  destruct k as [|k]; [destruct (m bol (c :: s)) as [[|j]|]|];
    cbn [List.length];
    match goal with
    | |- context [re_sub_empty m ?k' ?b' s] =>
        pose proof (IH k' b'); lia
    end.
Qed.

(** ** Texts drawn from a text *)

Lemma subseq_refl (s : str) : subseq s s.
Proof. induction s; constructor; assumption. Qed.

Lemma subseq_nil_l (s : str) : subseq [] s.
Proof. induction s; constructor; assumption. Qed.

Lemma subseq_trans (a b c : str) : subseq a b -> subseq b c -> subseq a c.
Proof.
  intros Hab Hbc. revert a Hab.
  induction Hbc as [|x b c Hbc IH|x b c Hbc IH]; intros a Hab.
  - exact Hab.
  - apply subseq_drop. now apply IH.
  - inversion Hab; subst.
    + apply subseq_drop. now apply IH.
    + apply subseq_keep. now apply IH.
Qed.

Lemma subseq_length (s t : str) :
  subseq s t -> List.length s <= List.length t.
Proof. induction 1; simpl; lia. Qed.

Lemma subseq_lstrip (s : str) : subseq (lstrip s) s.
Proof.
  induction s as [|c s IH]; simpl; [constructor|].
  destruct (is_space c); [now apply subseq_drop | apply subseq_refl].
Qed.

Lemma subseq_rstrip (s : str) : subseq (rstrip s) s.
Proof.
  induction s as [|c s IH]; simpl; [constructor|].
  destruct (rstrip s) as [|x t].
  - destruct (is_space c); [apply subseq_nil_l | now apply subseq_keep].
  - now apply subseq_keep.
Qed.

Lemma subseq_strip (s : str) : subseq (strip s) s.
Proof.
  unfold strip.
  exact (subseq_trans _ _ _ (subseq_rstrip (lstrip s)) (subseq_lstrip s)).
Qed.

(** A substitution by the empty text only drops characters. *)
Lemma subseq_re_sub (m : bool -> str -> option nat) (s : str) :
  forall k bol, subseq (re_sub_empty m k bol s) s.
Proof.
  induction s as [|c s IH]; intros k bol; [constructor|].
  cbn [re_sub_empty].
  destruct k as [|k]; [destruct (m bol (c :: s)) as [[|j]|]|];
    first [apply subseq_keep | apply subseq_drop]; apply IH.
Qed.

Lemma subseq_firstn (n : nat) (s : str) : subseq (firstn n s) s.
Proof.
  revert n. induction s as [|c s IH]; intros [|n]; simpl.
  - constructor.
  - constructor.
  - apply subseq_nil_l.
  - apply subseq_keep, IH.
Qed.

Section Cleaning.

Context {R : PyRuntime}.

(** X5. Whitespace around the response does not matter: a response
    padded with whitespace is cleaned to the same text and so gives the same
    result as the response itself. *)
Theorem extract_json_ignores_padding (before raw after : str) (w : world) :
  blank before = true ->
  blank after = true ->
  clean_response (before ++ raw ++ after) = clean_response raw
  /\ extract_json (before ++ raw ++ after) w = extract_json raw w.
Proof.
  intros Ha Hb.
  assert (E : clean_response (before ++ raw ++ after) = clean_response raw).
  { unfold clean_response. now rewrite (strip_padded _ _ _ Ha Hb). }
  split; [exact E|]. unfold extract_json. now rewrite E.
Qed.

(** X6. Cleaning only removes characters: the cleaned text is drawn from
    the response, its characters being characters of the response in the
    order they have there, and so is the excerpt shown on a parse failure;
    hence the cleaned text is never longer than the response, and the
    excerpt is at most 500 characters of it. *)
Theorem clean_response_only_removes (raw : str) :
  subseq (clean_response raw) raw
  /\ subseq (firstn 500 (clean_response raw)) raw
  /\ List.length (clean_response raw) <= List.length raw
  /\ List.length (firstn 500 (clean_response raw)) <= 500
  /\ List.length (firstn 500 (clean_response raw)) <= List.length raw.
Proof.
  assert (S : subseq (clean_response raw) raw).
  { unfold clean_response, sub_open, sub_close.
    repeat first
      [ exact (subseq_refl raw)
      | eapply subseq_trans; [apply subseq_strip|]
      | eapply subseq_trans; [apply subseq_re_sub|] ]. }
  pose proof (subseq_length _ _ S) as H.
  split; [exact S|]. split.
  - exact (subseq_trans _ _ _ (subseq_firstn 500 _) S).
  - rewrite length_firstn. repeat split; lia.
Qed.

End Cleaning.

(** The fenced response of the specification, indented and followed by
    empty lines. *)
Lemma extract_json_ignores_padding_witness :
  extract_json (R := Ref.runtime)
    (lit "  " ++ fenced_empty_backlog ++ [NL; NL]) w0
  = extract_json (R := Ref.runtime) fenced_empty_backlog w0.
Proof.
  apply (proj2 (extract_json_ignores_padding (R := Ref.runtime) (lit "  ")
                  fenced_empty_backlog [NL; NL] w0 eq_refl eq_refl)).
Defined.

(** ** The exits and the silence of the validator *)

Lemma no_exit_bind {A B} (c : outcome A) (k : A -> outcome B) :
  no_exit c -> (forall a, no_exit (k a)) -> no_exit (bind c k).
Proof.
  intros Hc Hk msg. destruct c as [a|m|e]; cbn [bind outcome_monad].
  - apply Hk.
  - now contradiction (Hc m).
  - discriminate.
Qed.


Lemma no_exit_ok {A} (a : A) : no_exit (Ok a).
Proof. intros msg. discriminate. Qed.

Lemma no_exit_raise {A} (e : exn) : no_exit (@Raise A e).
Proof. intros msg. discriminate. Qed.

Lemma no_exit_py_get (o : pyval) (k : str) (d : pyval) :
  no_exit (py_get o k d).
Proof. destruct o; intros msg; discriminate. Qed.

Lemma no_exit_py_iter (v : pyval) : no_exit (py_iter v).
Proof. destruct v; intros msg; discriminate. Qed.

Lemma no_exit_in_set (p : pyval) (ks : list str) : no_exit (in_set p ks).
Proof. destruct p; intros msg; discriminate. Qed.

Lemma no_exit_fold {A B} (f : A -> B -> outcome A) (xs : list B) :
  (forall a x, no_exit (f a x)) -> forall acc, no_exit (fold_o f xs acc).
Proof.
  intros Hf. induction xs as [|x xs IH]; intros acc.
  - apply no_exit_ok.
  - cbn [fold_o]. apply no_exit_bind; [apply Hf | intros a; apply IH].
Qed.

Section ValidatorExits.

Context {R : PyRuntime}.

Lemma no_exit_story_step (valid warnings : list str) (story : pyval) :
  no_exit (story_step valid warnings story).
Proof.
  unfold story_step. apply no_exit_bind; [apply no_exit_py_get | intros p].
  apply no_exit_bind; [apply no_exit_in_set | intros known].
  destruct (negb known); [|apply no_exit_ok].
  apply no_exit_bind; [apply no_exit_py_get | intros sd]. apply no_exit_ok.
Qed.

Lemma no_exit_epic_step (valid warnings : list str) (epic : pyval) :
  no_exit (epic_step valid warnings epic).
Proof.
  unfold epic_step. apply no_exit_bind; [apply no_exit_py_get | intros st].
  apply no_exit_bind.
  { destruct (negb (truthy st)); [|apply no_exit_ok].
    apply no_exit_bind; [apply no_exit_py_get | intros sd]. apply no_exit_ok. }
  intros ws. apply no_exit_bind; [apply no_exit_py_get | intros st'].
  apply no_exit_bind; [apply no_exit_py_iter | intros stories].
  apply no_exit_fold. intros a x. apply no_exit_story_step.
Qed.

Lemma no_exit_valid_priorities (schema : pyval) :
  no_exit (valid_priorities schema).
Proof.
  unfold valid_priorities.
  apply no_exit_bind; [apply no_exit_py_get | intros p].
  destruct p; intros msg; discriminate.
Qed.

(** X7. The only exit of the validator is the no-epics exit.  It is taken
    exactly when the value is an object whose [epics] is missing or false
    in Python's sense (null, an empty list, text or object, zero, false);
    the schema is not looked at before, and nothing is printed. *)
Theorem validate_structure_exits (data schema : pyval) (w : world) :
  (forall msg w', validate_structure data schema w = (Exit msg, w') ->
     msg = no_epics_message /\ w' = w)
  /\ (validate_structure data schema w = (Exit no_epics_message, w) <->
      is_dict data = true
      /\ truthy (field data (lit "epics") (PList [])) = false).
Proof.
  unfold validate_structure. rewrite bind_lift.
  destruct data as [| | | | | |kvs];
    try (split; [intros msg w' H; discriminate
                | split; [discriminate | intros [H _]; discriminate]]).
  cbn [py_get field is_dict].
  destruct (truthy match lookup (lit "epics") kvs with
                   | Some v => v
                   | None => PList []
                   end) eqn:Et; cbn [negb].
  - assert (Hne : forall msg w',
               (valid <- lift (valid_priorities schema);;
                epics <- lift (py_iter match lookup (lit "epics") kvs with
                                       | Some v => v
                                       | None => PList []
                                       end);;
                warnings <- lift (fold_o (epic_step valid) epics []);;
                report warnings) w <> (Exit msg, w')).
    { intros msg w'. rewrite bind_lift.
      pose proof (no_exit_valid_priorities schema) as H1.
      destruct (valid_priorities schema) as [valid|m|e];
        [|now contradiction (H1 m)|discriminate].
      rewrite bind_lift.
      pose proof (no_exit_py_iter match lookup (lit "epics") kvs with
                                  | Some v => v
                                  | None => PList []
                                  end) as H2.
      destruct (py_iter _) as [epics|m|e];
        [|now contradiction (H2 m)|discriminate].
      rewrite bind_lift.
      pose proof (no_exit_fold (epic_step valid) epics
                    (no_exit_epic_step valid) []) as H3.
      destruct (fold_o _ _ _) as [ws|m|e];
        [|now contradiction (H3 m)|discriminate].
      rewrite report_run. discriminate. }
    split.
    + intros msg w' H. now contradiction (Hne msg w').
    + split; [intros H; now contradiction (Hne _ _ H)|].
      intros [_ H]. discriminate.
  - split.
    + intros msg w' H. unfold sys_exit in H.
      apply exit_run_inv in H as [<- <-]. now split.
    + split; [now split | reflexivity].
Qed.

(** X8. On a backlog of the expected shape with at least one epic the
    validator is silent exactly when every epic has a story and every
    story has a priority that is a key of the schema: then, and only then,
    it returns without having printed anything. *)
Theorem validate_structure_silent (data schema : pyval) (w : world) :
  backlog_shaped data = true ->
  schema_shaped schema = true ->
  epics_of data <> [] ->
  (validate_structure data schema w = (Ok tt, w) <->
   filter no_stories (epics_of data) = []
   /\ filter (fun story =>
                negb (priority_known (priority_keys schema) story))
        (flat_map stories_of (epics_of data)) = []).
Proof.
  intros Hb Hs Hne. rewrite (validate_structure_shaped _ _ w Hb Hs).
  pose proof (expected_warnings_count (priority_keys schema) (epics_of data))
    as Hc.
  destruct (epics_of data) as [|epic epics]; [now contradiction Hne|].
  set (ws := expected_warnings (priority_keys schema) (epic :: epics)) in *.
  split.
  - intros H. apply ok_run_inv in H as [_ H]. destruct w as [e out fs].
    cbn [env stdout files] in H.
    assert (Hp : printed_report ws = []).
    { apply (app_inv_head out). rewrite app_nil_r. now injection H. }
    destruct ws as [|x ws]; [|discriminate].
    cbn [List.length] in Hc. split; apply length_zero_iff_nil; lia.
  - intros [H1 H2]. rewrite H1, H2 in Hc. cbn [List.length Nat.add] in Hc.
    apply length_zero_iff_nil in Hc. rewrite Hc. cbn [printed_report].
    rewrite app_nil_r. now destruct w.
Qed.

End ValidatorExits.

(** [epics: null] is the no-epics exit, also under a schema that is no
    mapping at all. *)
Lemma validate_structure_exits_witness :
  validate_structure (R := Ref.runtime) (PDict [(lit "epics", PNone)]) PNone
    w0
  = (Exit no_epics_message, w0).
Proof.
  apply (proj2 (validate_structure_exits (R := Ref.runtime)
                  (PDict [(lit "epics", PNone)]) PNone w0)).
  split; reflexivity.
Defined.

(** A backlog whose only epic has one story, of a known priority, passes
    in silence. *)
Lemma validate_structure_silent_witness :
  validate_structure (R := Ref.runtime) keyless_backlog sample_schema w0
  = (Ok tt, w0).
Proof.
  apply (validate_structure_silent (R := Ref.runtime) keyless_backlog
           sample_schema w0 eq_refl eq_refl).
  - vm_compute. discriminate.
  - split; vm_compute; reflexivity.
Defined.

(** ** The prompts and the document *)


Ltac pure_step :=
  rewrite bind_lift;
  match goal with
  | |- match ?c with Ok _ => _ | Exit _ => _ | Raise _ => _ end = _ =>
      destruct c; cbn [bind outcome_monad]; try reflexivity
  end.

Section PromptParts.

Context {R : PyRuntime}.

(** [build_prompt] is the system prompt of the schema, paired with the
    user prompt of the document. *)
Lemma build_prompt_parts (schema : pyval) (document : str) (w : world) :
  build_prompt schema document w =
  (match system_prompt_of schema with
   | Ok system => Ok (system, user_prompt_text document)
   | Exit msg => Exit msg
   | Raise e => Raise e
   end, w).
Proof.
  unfold build_prompt, system_prompt_of. repeat pure_step.
Qed.

Lemma no_exit_py_index (o : pyval) (k : str) : no_exit (py_index o k).
Proof.
  destruct o; try (intros msg; discriminate). simpl.
  destruct (lookup k kvs); intros msg; discriminate.
Qed.

Lemma no_exit_map_o {A B} (f : A -> outcome B) (xs : list A) :
  (forall x, no_exit (f x)) -> no_exit (map_o f xs).
Proof.
  intros Hf. induction xs as [|x xs IH]; [apply no_exit_ok|].
  cbn [map_o]. apply no_exit_bind; [apply Hf | intros y].
  apply no_exit_bind; [exact IH | intros ys]. apply no_exit_ok.
Qed.

Lemma no_exit_system_prompt (schema : pyval) :
  no_exit (system_prompt_of schema).
Proof.
  unfold system_prompt_of.
  repeat (apply no_exit_bind; [apply no_exit_py_get | intros ?]).
  apply no_exit_bind.
  { unfold priority_block. apply no_exit_bind.
    - destruct a1; intros msg; discriminate.
    - intros items. apply no_exit_bind; [|intros es; apply no_exit_ok].
      apply no_exit_map_o. intros [key cfg]. unfold priority_line.
      apply no_exit_bind; [apply no_exit_py_index | intros g].
      apply no_exit_ok. }
  intros block.
  repeat (apply no_exit_bind; [apply no_exit_py_get | intros ?]).
  apply no_exit_ok.
Qed.


(** X10. The system prompt belongs to the schema alone: for each schema
    there is one system prompt, or one exception, that [build_prompt]
    gives with every document and in every state; the document decides
    neither the system prompt nor whether the call fails, and the call
    never ends the run by [sys.exit]. *)
Theorem build_prompt_ignores_document (schema : pyval) :
  (exists system,
      forall document w,
        build_prompt schema document w
        = (Ok (system, user_prompt_text document), w))
  \/ (exists e, forall document w,
         build_prompt schema document w = (Raise e, w)).
Proof.
  pose proof (no_exit_system_prompt schema) as Hn.
  destruct (system_prompt_of schema) as [s|m|e] eqn:E.
  - left. exists s. intros document w. now rewrite build_prompt_parts, E.
  - now contradiction (Hn m).
  - right. exists e. intros document w. now rewrite build_prompt_parts, E.
Qed.

End PromptParts.


(** ** The summary *)

Lemma bind_ok_inv {A B} (m : M A) (k : A -> M B) (w w' : world) (b : B) :
  bind m k w = (Ok b, w') ->
  exists a w1, m w = (Ok a, w1) /\ k a w1 = (Ok b, w').
Proof.
  cbn [bind M_monad]. destruct (m w) as [[a| |] w1]; try discriminate.
  intros H. now exists a, w1.
Qed.

Lemma bind_print {B} (line : str) (k : unit -> M B) (w : world) :
  bind (print line) k w
  = k tt (World (env w) (stdout w ++ [line]) (files w)).
Proof. reflexivity. Qed.

Lemma lift_ok_inv {A} (c : outcome A) (w w' : world) (a : A) :
  lift c w = (Ok a, w') -> c = Ok a /\ w' = w.
Proof. unfold lift. intros H. injection H as -> <-. now split. Qed.

Lemma for_each_ok_inv {A} (f : A -> M unit) (xs : list A) :
  forall w w',
    for_each f xs w = (Ok tt, w') ->
    forall x, In x xs -> exists w1 w2, f x w1 = (Ok tt, w2).
Proof.
  induction xs as [|y xs IH]; intros w w' H x Hin; [contradiction|].
  cbn [for_each] in H. apply bind_ok_inv in H as ([] & w1 & Hy & Hrest).
  destruct Hin as [<-|Hin]; [now exists w, w1|].
  exact (IH _ _ Hrest x Hin).
Qed.

Lemma prints_only_for_each {A} (f : A -> M unit) (xs : list A) :
  (forall x, prints_only (f x)) -> prints_only (for_each f xs).
Proof.
  intros Hf. induction xs as [|x xs IH].
  - apply effect_free_prints_only, effect_free_ret.
  - cbn [for_each]. apply prints_only_bind; [apply Hf | intros _; exact IH].
Qed.

Lemma py_index_has (o : pyval) (k : str) :
  has_key o k = true -> py_index o k = Ok (field o k PNone).
Proof.
  destruct o; try discriminate. simpl.
  destruct (lookup k kvs); [reflexivity | discriminate].
Qed.

Lemma py_index_ok (o : pyval) (k : str) (v : pyval) :
  py_index o k = Ok v -> has_key o k = true.
Proof.
  destruct o; try discriminate. simpl.
  destruct (lookup k kvs); [reflexivity | discriminate].
Qed.

Section SummaryProperties.

Context {R : PyRuntime}.

Lemma summary_label_listed (priorities story : pyval) :
  is_dict priorities = true ->
  is_dict story = true ->
  hashable (field story (lit "priority") (PStr [])) = true ->
  is_dict (record_of priorities story) = true ->
  summary_label priorities story = Ok (label_of priorities story).
Proof.
  intros Hp Hs Hh Hr. unfold summary_label, label_of.
  rewrite (py_get_dict _ _ _ Hs). cbn [bind outcome_monad].
  assert (E : py_get_key priorities (field story (lit "priority") (PStr []))
                (PDict [])
              = Ok (record_of priorities story)).
  { unfold record_of. destruct priorities; try discriminate.
    destruct (field story (lit "priority") (PStr [])); try discriminate;
      reflexivity. }
  rewrite E. cbn [bind outcome_monad].
  rewrite (py_get_dict _ _ _ Hs). cbn [bind outcome_monad].
  now apply py_get_dict.
Qed.

(** X12. The priority the summary shows for a story: the label of the
    schema's record for the story's priority when that record has one;
    otherwise the story's priority itself; and a question mark when the
    story has no priority and no record answers for the empty one.  The
    lookup fails with TypeError on a priority that is a list or an object,
    and with AttributeError when the record found is no mapping. *)
Theorem summary_label_rule (priorities story : pyval) :
  is_dict priorities = true ->
  is_dict story = true ->
  (hashable (field story (lit "priority") (PStr [])) = true ->
   is_dict (record_of priorities story) = true ->
   summary_label priorities story = Ok (label_of priorities story)
   /\ (has_key (record_of priorities story) (lit "label") = true ->
       label_of priorities story
       = field (record_of priorities story) (lit "label") PNone)
   /\ (has_key (record_of priorities story) (lit "label") = false ->
       has_key story (lit "priority") = true ->
       label_of priorities story = field story (lit "priority") PNone)
   /\ (has_key (record_of priorities story) (lit "label") = false ->
       has_key story (lit "priority") = false ->
       label_of priorities story = PStr (lit "?")))
  /\ (hashable (field story (lit "priority") (PStr [])) = false ->
      summary_label priorities story = Raise TypeError)
  /\ (hashable (field story (lit "priority") (PStr [])) = true ->
      is_dict (record_of priorities story) = false ->
      summary_label priorities story = Raise AttributeError).
Proof.
  intros Hp Hs. split; [|split].
  - intros Hh Hr. split; [now apply summary_label_listed|].
    unfold label_of. destruct (record_of priorities story) as [| | | | | |rec];
      try discriminate.
    destruct story as [| | | | | |kvs]; try discriminate.
    unfold has_key, field.
    destruct (lookup (lit "label") rec);
      destruct (lookup (lit "priority") kvs); repeat split;
      intros; try discriminate; reflexivity.
  - intros Hh. unfold summary_label. rewrite (py_get_dict _ _ _ Hs).
    cbn [bind outcome_monad]. destruct priorities; try discriminate.
    destruct (field story (lit "priority") (PStr [])); try discriminate;
      reflexivity.
  - intros Hh Hr. unfold summary_label. rewrite (py_get_dict _ _ _ Hs).
    cbn [bind outcome_monad]. unfold record_of in Hr.
    destruct priorities as [| | | | | |prios]; try discriminate.
    destruct (field story (lit "priority") (PStr [])) as [| | | |k| |];
      try discriminate.
    cbn [py_get_key bind outcome_monad]. unfold field in Hr.
    rewrite (py_get_dict _ _ _ Hs). cbn [bind outcome_monad].
    destruct (match lookup k prios with Some v => v | None => PDict [] end);
      try discriminate; reflexivity.
Qed.

Lemma story_line_listed (priorities story : pyval) :
  is_dict priorities = true ->
  story_listed priorities story = true ->
  story_line priorities story = Ok (story_text priorities story).
Proof.
  intros Hp H. unfold story_listed in H.
  apply andb_true_iff in H as [H Hr]. apply andb_true_iff in H as [H Hh].
  apply andb_true_iff in H as [Hs Hsd].
  unfold story_line, story_text. rewrite (py_get_dict _ _ _ Hs).
  cbn [bind outcome_monad].
  destruct (truthy (field story (lit "gap_id") PNone)) eqn:Et.
  - assert (Hk : has_key story (lit "gap_id") = true).
    { destruct story as [| | | | | |kvs]; try discriminate.
      unfold field in Et. unfold has_key.
      destruct (lookup (lit "gap_id") kvs); [reflexivity | discriminate]. }
    rewrite (py_index_has _ _ Hk). cbn [bind outcome_monad].
    rewrite (summary_label_listed _ _ Hp Hs Hh Hr). cbn [bind outcome_monad].
    now rewrite (py_index_has _ _ Hsd).
  - cbn [bind outcome_monad].
    rewrite (summary_label_listed _ _ Hp Hs Hh Hr). cbn [bind outcome_monad].
    now rewrite (py_index_has _ _ Hsd).
Qed.

Lemma stories_listed_run (priorities : pyval) (stories : list pyval) :
  is_dict priorities = true ->
  forallb (story_listed priorities) stories = true ->
  forall w,
    for_each (fun story =>
                line <- lift (story_line priorities story) ;; print line)
      stories w
    = (Ok tt,
       World (env w) (stdout w ++ map (story_text priorities) stories)
         (files w)).
Proof.
  intros Hp. induction stories as [|story stories IH]; intros H w.
  - cbn. rewrite app_nil_r. now destruct w.
  - cbn [forallb] in H. apply andb_true_iff in H as [Hs Hrest].
    cbn [for_each bind M_monad]. unfold lift at 1.
    rewrite (story_line_listed _ _ Hp Hs). unfold print at 1.
    rewrite (IH Hrest). cbn [env stdout files map].
    now rewrite <- app_assoc.
Qed.

Lemma summary_epic_listed (priorities epic : pyval) (w : world) :
  is_dict priorities = true ->
  epic_listed priorities epic = true ->
  summary_epic priorities epic w
  = (Ok tt,
     World (env w) (stdout w ++ epic_text priorities epic) (files w)).
Proof.
  intros Hp H. unfold epic_listed in H.
  apply andb_true_iff in H as [H Hst]. apply andb_true_iff in H as [H Hsd].
  apply andb_true_iff in H as [He Hk].
  unfold summary_epic, epic_text, stories_of.
  rewrite bind_lift, (py_get_dict _ _ _ He).
  rewrite bind_lift, (py_index_has _ _ Hk).
  rewrite bind_lift, (py_index_has _ _ Hsd).
  destruct (field epic (lit "stories") (PList [])) as [| | | | |stories|];
    try discriminate.
  rewrite bind_lift. cbn [py_len]. rewrite bind_print, bind_lift.
  cbn [py_iter]. rewrite (stories_listed_run _ _ Hp Hst).
  cbn [env stdout files]. now rewrite <- app_assoc.
Qed.

Lemma epics_listed_run (priorities : pyval) (epics : list pyval) :
  is_dict priorities = true ->
  forallb (epic_listed priorities) epics = true ->
  forall w,
    for_each (summary_epic priorities) epics w
    = (Ok tt,
       World (env w) (stdout w ++ flat_map (epic_text priorities) epics)
         (files w)).
Proof.
  intros Hp. induction epics as [|epic epics IH]; intros H w.
  - cbn. rewrite app_nil_r. now destruct w.
  - cbn [forallb] in H. apply andb_true_iff in H as [He Hrest].
    cbn [for_each bind M_monad]. rewrite (summary_epic_listed _ _ _ Hp He).
    rewrite (IH Hrest). cbn [env stdout files flat_map].
    now rewrite <- app_assoc.
Qed.

Lemma count_stories_listed (priorities : pyval) (epics : list pyval) :
  forallb (epic_listed priorities) epics = true ->
  forall total,
    fold_o (fun total e =>
              stories <- py_get e (lit "stories") (PList []) ;;
              n <- py_len stories ;;
              Ok (total + n))
      epics total
    = Ok (total + List.length (flat_map stories_of epics)).
Proof.
  induction epics as [|epic epics IH]; intros H total.
  - cbn. now rewrite Nat.add_0_r.
  - cbn [forallb] in H. apply andb_true_iff in H as [He Hrest].
    unfold epic_listed in He. apply andb_true_iff in He as [He Hst].
    apply andb_true_iff in He as [He _]. apply andb_true_iff in He as [He _].
    cbn [fold_o]. rewrite (py_get_dict _ _ _ He). cbn [bind outcome_monad].
    cbn [flat_map]. unfold stories_of at 1.
    destruct (field epic (lit "stories") (PList [])) as [| | | | |stories|];
      try discriminate.
    cbn [py_len bind outcome_monad]. rewrite (IH Hrest), length_app.
    f_equal. lia.
Qed.

(** X11. On a backlog whose epics all have a key and a short description
    and whose stories all have a short description and a priority the
    schema can answer for, the summary returns and prints exactly: the
    header with the number of epics and the total number of stories, then
    per epic its line followed by one line per story, in order, then an
    empty line; that is two lines more than there are epics and stories.
    Nothing but the output changes. *)
Theorem print_summary_lines (data schema : pyval) (epics : list pyval)
    (w : world) :
  schema_shaped schema = true ->
  py_index data (lit "epics") = Ok (PList epics) ->
  forallb (epic_listed (field schema (lit "priorities") (PDict []))) epics
  = true ->
  print_summary data schema w
  = (Ok tt,
     World (env w)
       (stdout w
        ++ expected_summary (field schema (lit "priorities") (PDict []))
             epics)
       (files w))
  /\ List.length
       (expected_summary (field schema (lit "priorities") (PDict [])) epics)
     = 2 + List.length epics + List.length (flat_map stories_of epics).
Proof.
  intros Hs Hd Hl. unfold schema_shaped in Hs.
  apply andb_true_iff in Hs as [Hs Hp].
  set (priorities := field schema (lit "priorities") (PDict [])) in *.
  split.
  - assert (Hdict : is_dict data = true).
    { destruct data; try discriminate. reflexivity. }
    assert (Hf : field data (lit "epics") (PList []) = PList epics).
    { destruct data as [| | | | | |kvs]; try discriminate.
      unfold py_index in Hd. unfold field.
      destruct (lookup (lit "epics") kvs); [|discriminate].
      now injection Hd as ->. }
    unfold print_summary, expected_summary.
    rewrite bind_lift, (py_get_dict _ _ _ Hs). fold priorities.
    rewrite bind_lift, (py_get_dict _ _ _ Hdict), Hf.
    rewrite bind_lift. cbn [py_len].
    rewrite bind_lift. rewrite bind_lift. cbn [py_iter].
    rewrite bind_lift. unfold count_stories.
    rewrite (count_stories_listed _ _ Hl 0). cbn [Nat.add].
    rewrite bind_print, bind_lift, Hd, bind_lift. cbn [py_iter].
    cbn [bind M_monad]. rewrite (epics_listed_run _ _ Hp Hl). unfold print.
    cbn [env stdout files]. f_equal. f_equal.
    now rewrite <- !app_assoc.
  - unfold expected_summary. cbn [List.length]. rewrite length_app.
    cbn [List.length]. f_equal.
    assert (E : forall es,
               List.length (flat_map (epic_text priorities) es)
               = List.length es + List.length (flat_map stories_of es)).
    { induction es as [|e es IH]; [reflexivity|].
      cbn [flat_map]. rewrite !length_app, IH. unfold epic_text.
      cbn [List.length]. rewrite length_map. lia. }
    rewrite E. lia.
Qed.

End SummaryProperties.

(** One epic with two stories: five lines. *)
Lemma print_summary_lines_witness :
  print_summary (R := Ref.runtime) listed_backlog sample_schema w0
  = (Ok tt,
     World []
       [lit "Generated 1 epics, 2 stories:" ++ [NL];
        lit "  [e1] x — 2 stories";
        lit "      [G-1] s1  [Important]";
        lit "      s2  [?]";
        []] []).
Proof.
  destruct (print_summary_lines (R := Ref.runtime) listed_backlog
              sample_schema (epics_of listed_backlog) w0) as [H _].
  - reflexivity.
  - vm_compute. reflexivity.
  - vm_compute. reflexivity.
  - rewrite H. vm_compute. reflexivity.
Defined.

(** An unknown priority is shown as it is. *)
Lemma summary_label_rule_witness :
  summary_label (field sample_schema (lit "priorities") PNone)
    (PDict [(lit "priority", PStr (lit "urgent"))])
  = Ok (PStr (lit "urgent")).
Proof.
  destruct (summary_label_rule
              (field sample_schema (lit "priorities") PNone)
              (PDict [(lit "priority", PStr (lit "urgent"))])
              eq_refl eq_refl) as [H _].
  destruct (H eq_refl eq_refl) as [E _]. rewrite E. vm_compute. reflexivity.
Defined.

Ltac prints :=
  repeat (apply prints_only_bind;
          [first [ apply effect_free_prints_only, effect_free_lift
                 | apply prints_only_print ]
          | intros ?]).

Section SummaryAndPersistence.

Context {R : PyRuntime}.

Lemma story_line_ok_inv (priorities story : pyval) (line : str) :
  story_line priorities story = Ok line ->
  has_key story (lit "short_description") = true.
Proof.
  unfold story_line.
  destruct (py_get story (lit "gap_id") PNone) as [g| |];
    cbn [bind outcome_monad]; try discriminate.
  destruct (truthy g);
    [destruct (py_index story (lit "gap_id")) as [gid| |]|];
    cbn [bind outcome_monad]; try discriminate;
    (destruct (summary_label priorities story) as [l| |];
     cbn [bind outcome_monad]; try discriminate;
     destruct (py_index story (lit "short_description")) as [sd| |] eqn:E;
     cbn [bind outcome_monad]; try discriminate;
     intros _; exact (py_index_ok _ _ _ E)).
Qed.

Lemma summary_epic_ok_inv (priorities epic : pyval) (w w' : world) :
  summary_epic priorities epic w = (Ok tt, w') ->
  has_key epic (lit "key") = true
  /\ has_key epic (lit "short_description") = true
  /\ forall story, In story (stories_of epic) ->
                   has_key story (lit "short_description") = true.
Proof.
  unfold summary_epic. intros H.
  apply bind_ok_inv in H as (st & w1 & H1 & H).
  apply lift_ok_inv in H1 as [H1 ->]. apply py_get_ok in H1 as [He ->].
  apply bind_ok_inv in H as (key & w1 & H2 & H).
  apply lift_ok_inv in H2 as [H2 ->].
  apply bind_ok_inv in H as (sd & w1 & H3 & H).
  apply lift_ok_inv in H3 as [H3 ->].
  apply bind_ok_inv in H as (n & w1 & H4 & H).
  apply lift_ok_inv in H4 as [H4 ->].
  apply bind_ok_inv in H as ([] & w1 & _ & H).
  apply bind_ok_inv in H as (items & w2 & H5 & H).
  apply lift_ok_inv in H5 as [H5 ->].
  split; [exact (py_index_ok _ _ _ H2)|].
  split; [exact (py_index_ok _ _ _ H3)|].
  intros story Hin. unfold stories_of in Hin.
  destruct (field epic (lit "stories") (PList [])) as [| | | | |stories|];
    try contradiction.
  cbn [py_iter] in H5. injection H5 as <-.
  destruct (for_each_ok_inv _ _ _ _ H story Hin) as (wa & wb & Hs).
  apply bind_ok_inv in Hs as (line & wc & Hl & _).
  apply lift_ok_inv in Hl as [Hl _]. exact (story_line_ok_inv _ _ _ Hl).
Qed.

Lemma print_summary_ok_inv (data schema : pyval) (w w' : world) :
  print_summary data schema w = (Ok tt, w') ->
  forall epic, In epic (epics_of data) ->
    has_key epic (lit "key") = true
    /\ has_key epic (lit "short_description") = true
    /\ forall story, In story (stories_of epic) ->
                     has_key story (lit "short_description") = true.
Proof.
  unfold print_summary. intros H epic Hin.
  apply bind_ok_inv in H as (priorities & w1 & H1 & H).
  apply lift_ok_inv in H1 as [_ ->].
  apply bind_ok_inv in H as (e0 & w1 & H2 & H).
  apply lift_ok_inv in H2 as [H2 ->]. apply py_get_ok in H2 as [Hd ->].
  apply bind_ok_inv in H as (n & w1 & _ & H).
  apply bind_ok_inv in H as (e1 & w2 & _ & H).
  apply bind_ok_inv in H as (e2 & w3 & _ & H).
  apply bind_ok_inv in H as (c & w4 & _ & H).
  apply bind_ok_inv in H as ([] & w5 & _ & H).
  apply bind_ok_inv in H as (epics & w6 & H3 & H).
  apply lift_ok_inv in H3 as [H3 ->].
  apply bind_ok_inv in H as (items & w7 & H4 & H).
  apply lift_ok_inv in H4 as [H4 ->].
  apply bind_ok_inv in H as ([] & w8 & H5 & _).
  unfold epics_of in Hin.
  assert (Hf : epics = field data (lit "epics") (PList [])).
  { destruct data as [| | | | | |kvs]; try discriminate.
    unfold py_index in H3. unfold field.
    destruct (lookup (lit "epics") kvs); [|discriminate].
    now injection H3 as <-. }
  subst epics.
  destruct (field data (lit "epics") (PList [])) as [| | | | |es|];
    try contradiction.
  cbn [py_iter] in H4. injection H4 as <-.
  destruct (for_each_ok_inv _ _ _ _ H5 epic Hin) as (wa & wb & He).
  exact (summary_epic_ok_inv _ _ _ _ He).
Qed.

(** X13. The summary needs what the validator does not ask for.  It
    completes only if every epic has a key and a short description and
    every story a short description; the validator accepts a backlog of
    the expected shape without them, so a backlog with an epic that has no
    key passes validation and then makes the summary fail. *)
Theorem print_summary_needs_fields (data schema : pyval) (w : world) :
  (forall w', print_summary data schema w = (Ok tt, w') ->
     forall epic, In epic (epics_of data) ->
       has_key epic (lit "key") = true
       /\ has_key epic (lit "short_description") = true
       /\ forall story, In story (stories_of epic) ->
                        has_key story (lit "short_description") = true)
  /\ (backlog_shaped data = true ->
      schema_shaped schema = true ->
      forall epic, In epic (epics_of data) ->
        has_key epic (lit "key") = false ->
        (exists w1, validate_structure data schema w = (Ok tt, w1))
        /\ forall w0 w2, print_summary data schema w0 <> (Ok tt, w2)).
Proof.
  split.
  - intros w'. apply print_summary_ok_inv.
  - intros Hb Hs epic Hin Hk. split.
    + rewrite (validate_structure_shaped _ _ w Hb Hs).
      destruct (epics_of data); [contradiction | eexists; reflexivity].
    + intros wa wb H.
      destruct (print_summary_ok_inv _ _ _ _ H epic Hin) as [Hk' _].
      congruence.
Qed.

Lemma prints_only_summary_epic (priorities epic : pyval) :
  prints_only (summary_epic priorities epic).
Proof.
  unfold summary_epic. prints. apply prints_only_for_each. intros story.
  prints. apply prints_only_print.
Qed.

Lemma prints_only_print_summary (data schema : pyval) :
  prints_only (print_summary data schema).
Proof.
  unfold print_summary. prints.
  apply prints_only_bind; [|intros _; apply prints_only_print].
  apply prints_only_for_each. intros epic. apply prints_only_summary_epic.
Qed.

(** X14. The end of [main] writes at most one file, the output file, and
    only after the response has been parsed and validated: when both
    succeed the file holds [json.dump] of the parsed value, also when the
    summary fails afterwards; when parsing or validation fails, no file is
    written and the run does not complete.  The environment is never
    changed. *)
Theorem main_finish_output (schema : pyval) (raw : str) (w : world) :
  (forall data,
      extract_json raw w = (Ok data, w) ->
      fst (validate_structure data schema w) = Ok tt ->
      files (snd (main_finish schema raw w))
      = (OUTPUT_FILE, json_dumps data) :: files w)
  /\ ((forall data,
         extract_json raw w = (Ok data, w) ->
         fst (validate_structure data schema w) <> Ok tt) ->
      files (snd (main_finish schema raw w)) = files w
      /\ fst (main_finish schema raw w) <> Ok tt)
  /\ env (snd (main_finish schema raw w)) = env w.
Proof.
  destruct (extract_json_effect_free raw) as [r Hr].
  destruct r as [data|msg|e].
  - destruct (prints_only_validate data schema w) as (rv & p & Ev).
    destruct rv as [[]|msg|e].
    + assert (E : exists rs out,
                 main_finish schema raw w
                 = (rs, World (env w) out
                          ((OUTPUT_FILE, json_dumps data) :: files w))).
      { unfold main_finish. cbn [bind M_monad]. rewrite Hr, Ev.
        unfold write_file at 1. unfold print at 1. cbn [env stdout files].
        match goal with
        | |- context [print_summary data schema ?w1] =>
            destruct (prints_only_print_summary data schema w1)
              as (rs & q & Es); rewrite Es
        end.
        destruct rs as [[]| |]; cbn; eexists; eexists; reflexivity. }
      destruct E as (rs & out & E). rewrite E. cbn [fst snd env files].
      split; [|split].
      * intros d Hd _. rewrite Hr in Hd. apply ok_run_inv in Hd as [<- _].
        reflexivity.
      * intros H. exfalso. apply (H data); [apply Hr|]. now rewrite Ev.
      * reflexivity.
    + assert (E : main_finish schema raw w
                  = (Exit msg, World (env w) (stdout w ++ p) (files w))).
      { unfold main_finish. cbn [bind M_monad]. now rewrite Hr, Ev. }
      rewrite E. cbn [fst snd env files]. split; [|split].
      * intros d Hd Hv. rewrite Hr in Hd. apply ok_run_inv in Hd as [<- _].
        rewrite Ev in Hv. discriminate.
      * intros _. split; [reflexivity | discriminate].
      * reflexivity.
    + assert (E : main_finish schema raw w
                  = (Raise e, World (env w) (stdout w ++ p) (files w))).
      { unfold main_finish. cbn [bind M_monad]. now rewrite Hr, Ev. }
      rewrite E. cbn [fst snd env files]. split; [|split].
      * intros d Hd Hv. rewrite Hr in Hd. apply ok_run_inv in Hd as [<- _].
        rewrite Ev in Hv. discriminate.
      * intros _. split; [reflexivity | discriminate].
      * reflexivity.
  - assert (E : main_finish schema raw w = (Exit msg, w)).
    { unfold main_finish. cbn [bind M_monad]. now rewrite Hr. }
    rewrite E. cbn [fst snd]. split; [|split].
    + intros d Hd. rewrite Hr in Hd. discriminate.
    + intros _. split; [reflexivity | discriminate].
    + reflexivity.
  - assert (E : main_finish schema raw w = (Raise e, w)).
    { unfold main_finish. cbn [bind M_monad]. now rewrite Hr. }
    rewrite E. cbn [fst snd]. split; [|split].
    + intros d Hd. rewrite Hr in Hd. discriminate.
    + intros _. split; [reflexivity | discriminate].
    + reflexivity.
Qed.

End SummaryAndPersistence.

(** The response whose epic has no key: validated in silence, written, and
    then the summary raises. *)
Lemma print_summary_needs_fields_witness :
  (exists w1,
      validate_structure (R := Ref.runtime) keyless_backlog sample_schema w0
      = (Ok tt, w1))
  /\ forall w w', print_summary (R := Ref.runtime) keyless_backlog
                    sample_schema w <> (Ok tt, w').
Proof.
  apply (proj2 (print_summary_needs_fields (R := Ref.runtime) keyless_backlog
                  sample_schema w0) eq_refl eq_refl
           (PDict [(lit "short_description", PStr (lit "x"));
                   (lit "stories",
                    PList [PDict [(lit "short_description", PStr (lit "s1"));
                                  (lit "priority", PStr (lit "high"))]])])).
  - left. reflexivity.
  - reflexivity.
Defined.

(** The response whose epic has no key is written to the output file
    although the run then dies in the summary. *)
Lemma main_finish_output_witness :
  fst (main_finish (R := Ref.runtime) sample_schema keyless_response w0)
  = Raise KeyError
  /\ files (snd (main_finish (R := Ref.runtime) sample_schema
                   keyless_response w0))
     = [(OUTPUT_FILE (R := Ref.runtime),
         json_dumps (PyRuntime := Ref.runtime) keyless_backlog)].
Proof.
  split; [vm_compute; reflexivity|].
  apply (proj1 (main_finish_output (R := Ref.runtime) sample_schema
                  keyless_response w0)).
  - vm_compute. reflexivity.
  - vm_compute. reflexivity.
Defined.
